(** * market_data_service: cached aggregation of CoinGecko and Bybit data

    A shallow embedding of [market_data_service.py].  Python dictionaries
    are finite maps ([gmap]), JSON scalars are the constructors of [value],
    the seven-key dictionary literal built for every coin is a record, and
    the handlers run in a state-and-exception monad over a [World] holding
    the module-level [data_cache], the wall clock read by [time.time()] and
    the list of HTTP requests sent upstream. *)

From Stdlib Require Import PrimFloat ZArith.
From stdpp Require Import gmap strings list fin_maps fin_map_dom.

Open Scope string_scope.

(** ** Python values and built-ins *)

#[local] Set Warnings "-register-all".

(** JSON values as they come out of [response.json()]. *)
Inductive value : Type :=
  | VNone
  | VBool (b : bool)
  | VInt (z : Z)
  | VFloat (f : float)
  | VStr (s : string)
  | VList (l : list value)
  | VDict (d : gmap string value).

(** A Python [dict] with string keys. *)
Abbreviation dict V := (gmap string V).

(** [d.get(key, default)]. *)
Definition py_get (d : dict value) (key : string) (dflt : value) : value :=
  default dflt (d !! key).

(** Truth value of a dictionary: [{}] is false, anything else is true. *)
Definition truthy {V} (d : dict V) : bool := bool_decide (d ≠ ∅).

Module Str.

(** [s.endswith(suffix)]: some tail of [s] is [suffix]. *)
Fixpoint endswith (s suffix : string) : bool :=
  String.eqb s suffix ||
  match s with
  | EmptyString => false
  | String _ s' => endswith s' suffix
  end.

(** Left-to-right scan of [s.replace(old, new)].  [skip] counts the
    characters of a matched occurrence of [old] that are still to be
    passed over, so that occurrences never overlap. *)
Fixpoint replace_from (old new : string) (skip : nat) (s : string) : string :=
  match s with
  | EmptyString =>
      match old with EmptyString => new | _ => EmptyString end
  | String c s' =>
      match skip with
      | S k => replace_from old new k s'
      | O =>
          if String.prefix old s
          then new +:+
               match String.length old with
               | O => String c (replace_from old new 0 s')
               | S k => replace_from old new k s'
               end
          else String c (replace_from old new 0 s')
      end
  end.

(** [s.replace(old, new)]: every non-overlapping occurrence of [old]. *)
Definition replace (s old new : string) : string := replace_from old new 0 s.

(** [s.removesuffix(suffix)], the reading of the words "strip the
    suffix": drop one trailing occurrence and keep the rest. *)
Definition removesuffix (s suffix : string) : string :=
  if endswith s suffix
  then String.substring 0 (String.length s - String.length suffix) s
  else s.

End Str.

(** ** Aggregation *)

(** The dictionary literal stored under each symbol of the result. *)
Record InstrumentRecord : Type := mkInstrumentRecord {
  coinName : value;
  currentPrice : value;
  priceChange24hPcnt : value;
  volume24h : value;
  coinLogoURL : value;
  marketCapUSD : value;
  marketCapRank : value
}.

(** [x if cg_item else y], where [cg_item] is the result of
    [coingecko_data.get(base_coin)]: [None] and [{}] are both false. *)
Definition if_cg_item {A} (cg_item : option (dict value))
    (x : dict value → A) (y : A) : A :=
  match cg_item with
  | Some d => if truthy d then x d else y
  | None => y
  end.

Definition QUOTE : string := "USDT".

(** The record built for one retained [symbol], from its ticker entry
    [bb_item] and the market-cap entry found under [base_coin], if any. *)
Definition instrument_record (base_coin : string)
    (cg_item : option (dict value)) (bb_item : dict value) : InstrumentRecord :=
  {| coinName :=
       if_cg_item cg_item
         (λ d, py_get d "coinName" (VStr base_coin)) (VStr base_coin);
     currentPrice := py_get bb_item "lastPrice" VNone;
     priceChange24hPcnt := py_get bb_item "price24hPcnt" VNone;
     volume24h := py_get bb_item "volume24h" VNone;
     coinLogoURL :=
       if_cg_item cg_item (λ d, py_get d "coinLogoURL" VNone) VNone;
     marketCapUSD :=
       if_cg_item cg_item (λ d, py_get d "marketCapUSD" VNone) VNone;
     marketCapRank :=
       if_cg_item cg_item (λ d, py_get d "marketCapRank" VNone) VNone |}.

(** Body of the [for symbol, bb_item in bybit_data.items()] loop. *)
Definition aggregate_step (coingecko_data : dict (dict value))
    (symbol : string) (bb_item : dict value)
    (final_data : dict InstrumentRecord) : dict InstrumentRecord :=
  if negb (Str.endswith symbol QUOTE) then final_data
  else
    let base_coin := Str.replace symbol QUOTE "" in
    let cg_item := coingecko_data !! base_coin in
    <[ symbol := instrument_record base_coin cg_item bb_item ]> final_data.

Definition aggregate_data (coingecko_data bybit_data : dict (dict value))
    : dict InstrumentRecord :=
  map_fold (aggregate_step coingecko_data) ∅ bybit_data.

(** ** The world the handlers run in *)

(** The module-level [data_cache] dictionary, with its two fixed keys. *)
Record Cache : Type := mkCache {
  last_updated : float;
  data : dict InstrumentRecord
}.

(** A call [client.get(url, params=params, timeout=10)]. *)
Record http_get : Type := mkGet {
  url : string;
  params : dict value
}.

(** What [fetch_bybit_klines] sees of the answer to its request: an
    exception anywhere inside the [try] block (transport, time-out,
    [raise_for_status], decoding, a missing key), or a decoded body with
    its [retCode] and [result.list].  This is the typed view: a [retCode]
    that is an integer or absent, a list of candles.  Bodies of any other
    shape are covered by [fetch_bybit_klines_result] and
    [get_klines_from]. *)
Inductive kline_reply : Type :=
  | KlineRaised
  | KlineBody (retCode : option Z) (result_list : list (list string)).

(** The two providers, as far as this service can observe them.  The
    decoding done inside [fetch_coingecko_data] and
    [fetch_bybit_spot_tickers] is not modelled here: the oracle gives the
    symbol-keyed dictionary each of them returns, which is [{}] whenever
    the call failed in any way.  This is the typed view, [Dict[str, Any]];
    the decoding itself, and a ticker dictionary with keys that are not
    strings, are covered by [fetch_coingecko_data_result],
    [fetch_bybit_spot_tickers_result] and
    [get_cached_aggregated_investment_data_from]. *)
Record Upstream : Type := mkUpstream {
  coingecko_markets : dict (dict value);
  bybit_tickers : dict (dict value);
  bybit_kline : dict value → kline_reply;
  round_trip : float
}.

Record World : Type := mkWorld {
  data_cache : Cache;
  clock : float;
  sent : list http_get
}.

(** [raise HTTPException(status_code=..., detail=...)]. *)
Record HTTPException : Type := mkHTTPException {
  status_code : Z;
  detail : string
}.

(** Computations that read and write the world and may raise; what was
    written before a [raise] stays written. *)
Definition M (A : Type) : Type := World → (HTTPException + A) * World.

Definition ret {A} (a : A) : M A := λ w, (inr a, w).

Definition bind {A B} (m : M A) (k : A → M B) : M B :=
  λ w, match m w with
       | (inr a, w') => k a w'
       | (inl e, w') => (inl e, w')
       end.

Definition raise {A} (e : HTTPException) : M A := λ w, (inl e, w).

Notation "x <- m ;; k" := (bind m (λ x, k))
  (at level 100, m at next level, right associativity).
Notation "m ;; k" := (bind m (λ _, k))
  (at level 100, right associativity).

(** [time.time()]. *)
Definition time_time : M float := λ w, (inr (clock w), w).

(** A read of the global [data_cache]. *)
Definition read_cache : M Cache := λ w, (inr (data_cache w), w).

(** [data_cache["data"] = d]. *)
Definition store_data (d : dict InstrumentRecord) : M unit :=
  λ w, (inr (),
        {| data_cache := {| last_updated := last_updated (data_cache w);
                            data := d |};
           clock := clock w; sent := sent w |}).

(** [data_cache["last_updated"] = t]. *)
Definition store_last_updated (t : float) : M unit :=
  λ w, (inr (),
        {| data_cache := {| last_updated := t; data := data (data_cache w) |};
           clock := clock w; sent := sent w |}).

(** [await client.get(url, params=params, timeout=10)]: the request goes
    out and the coroutine is suspended while the clock runs on. *)
Definition client_get (up : Upstream) (u : string) (p : dict value) : M unit :=
  λ w, (inr (),
        {| data_cache := data_cache w;
           clock := PrimFloat.add (clock w) (round_trip up);
           sent := sent w ++ [ {| url := u; params := p |} ] |}).

(** ** Configuration *)

Definition BYBIT_API_BASE_URL : string := "https://api.bybit.com".
Definition TICKERS_ENDPOINT : string := "/v5/market/tickers".
Definition KLINE_ENDPOINT : string := "/v5/market/kline".
Definition COINGECKO_API_URL : string :=
  "https://api.coingecko.com/api/v3/coins/markets".
Definition COINGECKO_PARAMS : dict value :=
  {[ "vs_currency" := VStr "usd"; "per_page" := VInt 250;
     "page" := VInt 1; "sparkline" := VBool false ]}.

Definition CACHE_DURATION_SECONDS : float := 300%float.

(** The initial value of [data_cache]. *)
Definition initial_cache : Cache := {| last_updated := 0%float; data := ∅ |}.

Definition HTTP_400_BAD_REQUEST : Z := 400.
Definition HTTP_404_NOT_FOUND : Z := 404.
Definition HTTP_503_SERVICE_UNAVAILABLE : Z := 503.

(** ** Fetchers *)

Definition fetch_coingecko_data (up : Upstream) : M (dict (dict value)) :=
  client_get up COINGECKO_API_URL COINGECKO_PARAMS ;;
  ret (coingecko_markets up).

Definition fetch_bybit_spot_tickers (up : Upstream) : M (dict (dict value)) :=
  client_get up (BYBIT_API_BASE_URL +:+ TICKERS_ENDPOINT)
             {[ "category" := VStr "spot" ]} ;;
  ret (bybit_tickers up).

(** The later of two clock readings. *)
Definition later (t1 t2 : float) : float :=
  if PrimFloat.ltb t1 t2 then t2 else t1.

(** [await asyncio.gather(a, b)]: [a] runs up to its first suspension,
    then [b] does; both are started at the same clock reading, and the
    caller resumes with both results once the slower of the two is done. *)
Definition gather {A B} (a : M A) (b : M B) : M (A * B) :=
  λ w,
    match a w with
    | (inl e, wa) => (inl e, wa)
    | (inr x, wa) =>
        match b {| data_cache := data_cache wa; clock := clock w;
                   sent := sent wa |} with
        | (inl e, wb) => (inl e, wb)
        | (inr y, wb) =>
            (inr (x, y),
             {| data_cache := data_cache wb;
                clock := later (clock wa) (clock wb);
                sent := sent wb |})
        end
    end.

(** A [str] argument that may also be [None]. *)
Definition str_value (s : option string) : value :=
  match s with Some s => VStr s | None => VNone end.

(** Truth value of such an argument: [None] and [""] are false. *)
Definition str_truthy (s : option string) : bool :=
  match s with
  | None => false
  | Some s => negb (String.eqb s "")
  end.

(** Truth value of an [int] argument that may be [None]. *)
Definition int_truthy (n : option Z) : bool :=
  match n with
  | None => false
  | Some z => negb (z =? 0)%Z
  end.

(** [str(s)] inside an f-string. *)
Definition str_format (s : option string) : string := default "None" s.

(** [if v: params[key] = v] for an optional [int] argument. *)
Definition set_if_truthy (key : string) (v : option Z) (params : dict value)
    : dict value :=
  match v with
  | Some t => if int_truthy v then <[ key := VInt t ]> params else params
  | None => params
  end.

(** The [params] dictionary built by [fetch_bybit_klines]. *)
Definition kline_params (symbol interval : option string)
    (start_time end_time : option Z) (limit : Z) : dict value :=
  let params : dict value :=
    {[ "category" := VStr "spot"; "symbol" := str_value symbol;
       "interval" := str_value interval; "limit" := VInt limit ]} in
  let params := set_if_truthy "start" start_time params in
  let params := set_if_truthy "end" end_time params in
  params.

Definition fetch_bybit_klines (up : Upstream) (symbol interval : option string)
    (start_time end_time : option Z) (limit : Z) : M (list (list string)) :=
  let params := kline_params symbol interval start_time end_time limit in
  client_get up (BYBIT_API_BASE_URL +:+ KLINE_ENDPOINT) params ;;
  match bybit_kline up params with
  | KlineBody (Some 0%Z) (c :: cs) => ret (c :: cs)
  | KlineBody _ _ => ret []
  | KlineRaised => ret []
  end.

(** ** Handlers *)

(** The cache check of the main endpoint. *)
Definition cache_fresh (current_time : float) (c : Cache) : bool :=
  PrimFloat.ltb (PrimFloat.sub current_time (last_updated c))
                CACHE_DURATION_SECONDS
  && truthy (data c).

Definition get_cached_aggregated_investment_data (up : Upstream)
    : M (dict InstrumentRecord) :=
  current_time <- time_time ;;
  cache <- read_cache ;;
  if cache_fresh current_time cache then ret (data cache)
  else
    fetched <- gather (fetch_coingecko_data up) (fetch_bybit_spot_tickers up) ;;
    let final_data := aggregate_data fetched.1 fetched.2 in
    if truthy final_data then
      store_data final_data ;;
      store_last_updated current_time ;;
      ret final_data
    else
      cache <- read_cache ;;
      if truthy (data cache) then ret (data cache)
      else raise {| status_code := HTTP_503_SERVICE_UNAVAILABLE;
                    detail := "Could not fetch data from external APIs and cache is empty." |}.

Definition get_klines (up : Upstream) (symbol interval : option string)
    (start_time end_time : option Z) (limit : Z) : M (list (list string)) :=
  if negb (str_truthy symbol) || negb (str_truthy interval) then
    raise {| status_code := HTTP_400_BAD_REQUEST;
             detail := "Symbol and interval are required query parameters." |}
  else
    klines <- fetch_bybit_klines up symbol interval start_time end_time limit ;;
    match klines with
    | [] =>
        raise {| status_code := HTTP_404_NOT_FOUND;
                 detail := "No kline data found for " +:+ str_format symbol
                           +:+ " at interval " +:+ str_format interval
                           +:+ ". Check symbol and interval validity." |}
    | _ :: _ => ret klines
    end.

(** ** The service as a sequence of requests *)

Inductive Request : Type :=
  | AggregatedData
  | Klines (symbol interval : option string)
           (start_time end_time : option Z) (limit : Z).

(** One incoming request: when it arrives, what it asks for, and how the
    providers behave while it is being served. *)
Record Event : Type := mkEvent {
  arrival : float;
  request : Request;
  upstream : Upstream
}.

(** What the caller gets back. *)
Inductive Response : Type :=
  | Snapshot (d : dict InstrumentRecord)
  | Candles (k : list (list string))
  | Failure (e : HTTPException).

Definition lift {A} (f : A → Response) (r : (HTTPException + A) * World)
    : Response * World :=
  (match r.1 with inr a => f a | inl e => Failure e end, r.2).

Definition serve (ev : Event) (w : World) : Response * World :=
  let w := {| data_cache := data_cache w; clock := arrival ev;
              sent := sent w |} in
  match request ev with
  | AggregatedData =>
      lift Snapshot (get_cached_aggregated_investment_data (upstream ev) w)
  | Klines symbol interval start_time end_time limit =>
      lift Candles
           (get_klines (upstream ev) symbol interval start_time end_time limit w)
  end.

Definition run (evs : list Event) (w : World) : World :=
  foldl (λ w ev, (serve ev w).2) w evs.

Definition initial_world : World :=
  {| data_cache := initial_cache; clock := 0%float; sent := [] |}.

(** ** The cache-state invariant *)

(** The timestamp still has its initial value [0]. *)
Definition timestamp_unset (t : float) : bool := PrimFloat.eqb t 0%float.

(** Either a non-empty snapshot with a timestamp that has been set, or no
    snapshot and the initial timestamp. *)
Definition cache_inv (c : Cache) : Prop :=
  (data c ≠ ∅ ∧ timestamp_unset (last_updated c) = false)
  ∨ (data c = ∅ ∧ timestamp_unset (last_updated c) = true).

(** A required query parameter that is absent or the empty string. *)
Definition missing_or_empty (s : option string) : Prop :=
  s = None ∨ s = Some "".

(** The request [ev], served in world [w], ran a refresh that succeeded
    with the non-empty snapshot [d]. *)
Definition refreshed_with (ev : Event) (w : World) (d : dict InstrumentRecord)
    : Prop :=
  request ev = AggregatedData
  ∧ cache_fresh (arrival ev) (data_cache w) = false
  ∧ d = aggregate_data (coingecko_markets (upstream ev))
                       (bybit_tickers (upstream ev))
  ∧ d ≠ ∅.

(** ** Sample data *)

Module Sample.

Definition tickers : dict (dict value) :=
  {[ "BTCUSDT" := {[ "lastPrice" := VStr "50000";
                     "price24hPcnt" := VStr "0.02";
                     "volume24h" := VStr "1000" ]} ]}.

Definition markets : dict (dict value) :=
  {[ "BTC" := {[ "marketCapUSD" := VInt 900000000000;
                 "marketCapRank" := VInt 1;
                 "coinName" := VStr "Bitcoin";
                 "coinLogoURL" := VStr "url" ]} ]}.

Definition btc : InstrumentRecord :=
  {| coinName := VStr "Bitcoin"; currentPrice := VStr "50000";
     priceChange24hPcnt := VStr "0.02"; volume24h := VStr "1000";
     coinLogoURL := VStr "url"; marketCapUSD := VInt 900000000000;
     marketCapRank := VInt 1 |}.

Definition candle : list string :=
  ["1700000000000"; "50000"; "50500"; "49900"; "50100"; "12.5"; "625000"].

(** Both providers answer, each after two and a half seconds. *)
Definition up_ok : Upstream :=
  {| coingecko_markets := markets; bybit_tickers := tickers;
     bybit_kline := λ _, KlineBody (Some 0%Z) [candle];
     round_trip := 2.5%float |}.

(** Both providers are down and every call runs into its time-out. *)
Definition up_down : Upstream :=
  {| coingecko_markets := ∅; bybit_tickers := ∅;
     bybit_kline := λ _, KlineRaised;
     round_trip := 10%float |}.

Definition old_snapshot : dict InstrumentRecord :=
  {[ "ETHUSDT" := {| coinName := VStr "ETH"; currentPrice := VStr "3000";
                     priceChange24hPcnt := VStr "-0.01";
                     volume24h := VStr "20"; coinLogoURL := VNone;
                     marketCapUSD := VNone; marketCapRank := VNone |} ]}.

(** A cache filled at second 1000. *)
Definition warm (now : float) : World :=
  {| data_cache := {| last_updated := 1000%float; data := old_snapshot |};
     clock := now; sent := [] |}.

(** A process that has not served anything yet. *)
Definition cold (now : float) : World :=
  {| data_cache := initial_cache; clock := now; sent := [] |}.

(** Four requests: the providers are down, then up, then candles are
    asked for, then the providers are down again long after. *)
Definition day : list Event :=
  [ {| arrival := 1000%float; request := AggregatedData;
       upstream := up_down |};
    {| arrival := 1010%float; request := AggregatedData;
       upstream := up_ok |};
    {| arrival := 1020%float;
       request := Klines (Some "BTCUSDT") (Some "60") None None 1000;
       upstream := up_ok |};
    {| arrival := 2000%float; request := AggregatedData;
       upstream := up_down |} ].

End Sample.

(** ** Decoding the providers' answers *)

(** What [fetch_coingecko_data] sees of the answer to its request: an
    exception raised by [client.get], [raise_for_status] or
    [response.json()] (a body that is not a list of objects ends the same
    way, in the [except] branch), or the decoded list of coin objects.  A
    coin is given by its scalar fields; the loop reads no other. *)
Inductive coingecko_response : Type :=
  | CoinGeckoRaised
  | CoinGeckoBody (raw_data : list (dict value)).

(** The dictionary stored for one [coin]. *)
Definition coingecko_entry (coin : dict value) : dict value :=
  {[ "marketCapUSD" := py_get coin "market_cap" VNone;
     "marketCapRank" := py_get coin "market_cap_rank" VNone;
     "coinName" := py_get coin "name" VNone;
     "coinLogoURL" := py_get coin "image" VNone ]}.

(** The [for coin in raw_data] loop of [fetch_coingecko_data].  [upper] is
    [str.upper], taken as a parameter.  [None] stands for the
    [AttributeError] of calling [.upper()] on a symbol that is not a
    string. *)
Fixpoint coingecko_loop (upper : string → string)
    (raw_data : list (dict value)) (coingecko_map : dict (dict value))
    : option (dict (dict value)) :=
  match raw_data with
  | [] => Some coingecko_map
  | coin :: rest =>
      match py_get coin "symbol" (VStr "") with
      | VStr s =>
          let symbol := upper s in
          if negb (String.eqb symbol "")
          then coingecko_loop upper rest
                 (<[ symbol := coingecko_entry coin ]> coingecko_map)
          else coingecko_loop upper rest coingecko_map
      | _ => None
      end
  end.

(** The value [fetch_coingecko_data] returns for a given answer: any
    exception inside the [try] block is turned into [{}]. *)
Definition fetch_coingecko_data_result (upper : string → string)
    (response : coingecko_response) : dict (dict value) :=
  match response with
  | CoinGeckoRaised => ∅
  | CoinGeckoBody raw_data => default ∅ (coingecko_loop upper raw_data ∅)
  end.

(** The symbol under which [coin] is filed, when it has a string symbol. *)
Definition coin_symbol (upper : string → string) (coin : dict value)
    : option string :=
  match py_get coin "symbol" (VStr "") with
  | VStr s => Some (upper s)
  | _ => None
  end.

(** *** Python on JSON values *)

(** Truth value: [None], [False], zero, and the empty string, list and
    dictionary are false. *)
Definition py_truthy (v : value) : bool :=
  match v with
  | VNone => false
  | VBool b => b
  | VInt z => negb (z =? 0)%Z
  | VFloat f => negb (PrimFloat.eqb f 0%float)
  | VStr s => negb (String.eqb s "")
  | VList l => match l with [] => false | _ :: _ => true end
  | VDict d => truthy d
  end.

(** [v == 0]: true of the integer 0, of the floats 0.0 and -0.0, and of
    [False]. *)
Definition py_eq_zero (v : value) : bool :=
  match v with
  | VInt z => (z =? 0)%Z
  | VFloat f => PrimFloat.eqb f 0%float
  | VBool b => negb b
  | _ => false
  end.

(** [v.get(key)]; only a dictionary has the method, [None] stands for the
    [AttributeError] on anything else. *)
Definition py_dict_get (v : value) (key : string) : option value :=
  match v with
  | VDict d => Some (default VNone (d !! key))
  | _ => None
  end.

(** [v[key]] for a string [key]; [None] stands for the [KeyError] of a
    dictionary without the key and for the [TypeError] on anything that is
    not a dictionary. *)
Definition py_subscript (v : value) (key : string) : option value :=
  match v with
  | VDict d => d !! key
  | _ => None
  end.

(** What a Bybit fetcher sees of the answer to its request: an exception
    raised by [client.get], [raise_for_status] or [response.json()], or the
    decoded body. *)
Inductive http_answer : Type :=
  | Raised
  | Body (data : value).

(** *** Tickers *)

(** A dictionary keyed by the tickers' symbols: its entries under string
    keys, and whether those are all its entries ([None], booleans and
    numbers can be keys too). *)
Record tickers_dict : Type := mkTickersDict {
  by_str : dict (dict value);
  only_str : bool
}.

(** [{item['symbol']: item for item in items}] over a list.  [None] stands
    for an exception: the [TypeError] of an item that is not a dictionary,
    the [KeyError] of one without a "symbol" key, the [TypeError] of a
    symbol that is a list or a dictionary and so cannot be a key. *)
Fixpoint tickers_comprehension (items : list value)
    (acc : tickers_dict) : option tickers_dict :=
  match items with
  | [] => Some acc
  | VDict item :: rest =>
      match item !! "symbol" with
      | None => None
      | Some (VStr s) =>
          tickers_comprehension rest
            {| by_str := <[ s := item ]> (by_str acc);
               only_str := only_str acc |}
      | Some (VList _) | Some (VDict _) => None
      | Some _ =>
          tickers_comprehension rest
            {| by_str := by_str acc; only_str := false |}
      end
  | _ :: _ => None
  end.

Definition empty_tickers : tickers_dict := {| by_str := ∅; only_str := true |}.

(** The comprehension over whatever [data['result']['list']] is.  Iterating
    a dictionary or a string yields strings, which cannot be subscripted
    with 'symbol'; anything else but a list cannot be iterated. *)
Definition tickers_of (lst : value) : option tickers_dict :=
  match lst with
  | VList items => tickers_comprehension items empty_tickers
  | VDict d => if truthy d then None else Some empty_tickers
  | VStr s => if String.eqb s "" then Some empty_tickers else None
  | _ => None
  end.

(** The value [fetch_bybit_spot_tickers] returns for a given answer: any
    exception inside the [try] block is turned into [{}]. *)
Definition fetch_bybit_spot_tickers_result (answer : http_answer)
    : tickers_dict :=
  match answer with
  | Raised => empty_tickers
  | Body data =>
      match py_dict_get data "retCode" with
      | None => empty_tickers
      | Some retCode =>
          if py_eq_zero retCode
          then default empty_tickers
                 (result ← py_subscript data "result";
                  lst ← py_subscript result "list";
                  tickers_of lst)
          else empty_tickers
      end
  end.

(** The item is a ticker carrying the string symbol [s]. *)
Definition has_symbol (s : string) (item : value) : bool :=
  match item with
  | VDict d =>
      match d !! "symbol" with
      | Some (VStr s') => String.eqb s s'
      | _ => false
      end
  | _ => false
  end.

(** The item can go into the comprehension: a dictionary whose "symbol" is
    present and is not a list or a dictionary. *)
Definition ticker_ok (item : value) : bool :=
  match item with
  | VDict d =>
      match d !! "symbol" with
      | None | Some (VList _) | Some (VDict _) => false
      | Some _ => true
      end
  | _ => false
  end.

(** The item's symbol is a string. *)
Definition ticker_str (item : value) : bool :=
  match item with
  | VDict d =>
      match d !! "symbol" with Some (VStr _) => true | _ => false end
  | _ => false
  end.

(** *** Klines *)

(** The value [fetch_bybit_klines] returns for a given answer:
    [data['result']['list']] when [retCode] compares equal to 0 and that
    value is true, and [[]] otherwise, any exception included. *)
Definition fetch_bybit_klines_result (answer : http_answer) : value :=
  match answer with
  | Raised => VList []
  | Body data =>
      match py_dict_get data "retCode" with
      | None => VList []
      | Some retCode =>
          if py_eq_zero retCode
          then match result ← py_subscript data "result";
                     py_subscript result "list" with
               | Some lst => if py_truthy lst then lst else VList []
               | None => VList []
               end
          else VList []
      end
  end.

(** ** The handlers against the providers' answers *)

(** How the providers answer while one request is being served. *)
Record Network : Type := mkNetwork {
  coingecko_answer : coingecko_response;
  tickers_answer : http_answer;
  kline_answer : dict value → http_answer;
  latency : float
}.

(** [await client.get(url, params=params, timeout=10)], as [client_get]. *)
Definition send (latency : float) (u : string) (p : dict value) : M unit :=
  λ w, (inr (),
        {| data_cache := data_cache w;
           clock := PrimFloat.add (clock w) latency;
           sent := sent w ++ [ {| url := u; params := p |} ] |}).

Definition fetch_coingecko_data_from (upper : string → string)
    (net : Network) : M (dict (dict value)) :=
  send (latency net) COINGECKO_API_URL COINGECKO_PARAMS ;;
  ret (fetch_coingecko_data_result upper (coingecko_answer net)).

Definition fetch_bybit_spot_tickers_from (net : Network) : M tickers_dict :=
  send (latency net) (BYBIT_API_BASE_URL +:+ TICKERS_ENDPOINT)
       {[ "category" := VStr "spot" ]} ;;
  ret (fetch_bybit_spot_tickers_result (tickers_answer net)).

Definition fetch_bybit_klines_from (net : Network)
    (symbol interval : option string) (start_time end_time : option Z)
    (limit : Z) : M value :=
  let params := kline_params symbol interval start_time end_time limit in
  send (latency net) (BYBIT_API_BASE_URL +:+ KLINE_ENDPOINT) params ;;
  ret (fetch_bybit_klines_result (kline_answer net params)).

(** What can leave a handler: an [HTTPException] it raised, or the
    [AttributeError] that nothing catches. *)
Inductive exn : Type :=
  | HTTP (e : HTTPException)
  | AttributeError.

Definition MX (A : Type) : Type := World → (exn + A) * World.

Definition retX {A} (a : A) : MX A := λ w, (inr a, w).

Definition bindX {A B} (m : MX A) (k : A → MX B) : MX B :=
  λ w, match m w with
       | (inr a, w') => k a w'
       | (inl e, w') => (inl e, w')
       end.

Definition raiseX {A} (e : exn) : MX A := λ w, (inl e, w).

Definition http {A} (m : M A) : MX A :=
  λ w, match m w with
       | (inr a, w') => (inr a, w')
       | (inl e, w') => (inl (HTTP e), w')
       end.

Notation "x <~ m ;; k" := (bindX m (λ x, k))
  (at level 100, m at next level, right associativity).

(** [aggregate_data] called on what the fetchers returned: on reaching a
    key that is not a string, [symbol.endswith] raises [AttributeError]. *)
Definition aggregate_fetched (coingecko_data : dict (dict value))
    (bybit_data : tickers_dict) : MX (dict InstrumentRecord) :=
  if only_str bybit_data
  then retX (aggregate_data coingecko_data (by_str bybit_data))
  else raiseX AttributeError.

Definition get_cached_aggregated_investment_data_from
    (upper : string → string) (net : Network) : MX (dict InstrumentRecord) :=
  current_time <~ http time_time ;;
  cache <~ http read_cache ;;
  if cache_fresh current_time cache then retX (data cache)
  else
    fetched <~ http (gather (fetch_coingecko_data_from upper net)
                            (fetch_bybit_spot_tickers_from net)) ;;
    final_data <~ aggregate_fetched fetched.1 fetched.2 ;;
    if truthy final_data then
      http (store_data final_data ;;
            store_last_updated current_time ;;
            ret final_data)
    else
      cache <~ http read_cache ;;
      if truthy (data cache) then retX (data cache)
      else raiseX (HTTP {| status_code := HTTP_503_SERVICE_UNAVAILABLE;
                           detail := "Could not fetch data from external APIs and cache is empty." |}).

Definition get_klines_from (net : Network) (symbol interval : option string)
    (start_time end_time : option Z) (limit : Z) : M value :=
  if negb (str_truthy symbol) || negb (str_truthy interval) then
    raise {| status_code := HTTP_400_BAD_REQUEST;
             detail := "Symbol and interval are required query parameters." |}
  else
    klines <- fetch_bybit_klines_from net symbol interval start_time end_time
                                      limit ;;
    if negb (py_truthy klines) then
      raise {| status_code := HTTP_404_NOT_FOUND;
               detail := "No kline data found for " +:+ str_format symbol
                         +:+ " at interval " +:+ str_format interval
                         +:+ ". Check symbol and interval validity." |}
    else ret klines.

(** One incoming request with the providers' answers during it. *)
Record Call : Type := mkCall {
  at_time : float;
  asked : Request;
  net : Network
}.

(** How a call ends. *)
Inductive Outcome : Type :=
  | ReturnedSnapshot (d : dict InstrumentRecord)
  | ReturnedCandles (k : value)
  | RaisedExn (e : exn).

Definition serve_from (upper : string → string) (c : Call) (w : World)
    : Outcome * World :=
  let w := {| data_cache := data_cache w; clock := at_time c;
              sent := sent w |} in
  match asked c with
  | AggregatedData =>
      let r := get_cached_aggregated_investment_data_from upper (net c) w in
      (match r.1 with
       | inr d => ReturnedSnapshot d
       | inl e => RaisedExn e
       end, r.2)
  | Klines symbol interval start_time end_time limit =>
      let r := get_klines_from (net c) symbol interval start_time end_time
                               limit w in
      (match r.1 with
       | inr k => ReturnedCandles k
       | inl e => RaisedExn (HTTP e)
       end, r.2)
  end.

Definition run_from (upper : string → string) (cs : list Call) (w : World)
    : World :=
  foldl (λ w c, (serve_from upper c w).2) w cs.

(** A typed kline reply as a JSON answer, and candles as a JSON value. *)
Definition candles_value (candles : list (list string)) : value :=
  VList ((λ candle, VList (VStr <$> candle)) <$> candles).

Definition kline_answer_of (reply : kline_reply) : http_answer :=
  match reply with
  | KlineRaised => Raised
  | KlineBody retCode result_list =>
      Body (VDict
        (match retCode with
         | Some z => <[ "retCode" := VInt z ]>
         | None => id
         end
         {[ "result" := VDict {[ "list" := candles_value result_list ]} ]}))
  end.

(** ** API key *)

Definition API_KEY_HEADER : string := "X-API-Key".
Definition HTTP_401_UNAUTHORIZED : Z := 401.

(** [a != b] on values that are a string or [None]. *)
Definition py_ne (a b : option string) : bool :=
  match a, b with
  | Some x, Some y => negb (String.eqb x y)
  | None, None => false
  | _, _ => true
  end.

(** [verify_api_key]: the exception carries its [headers] dictionary next
    to status and detail.  [API_KEY_SECRET] is [os.getenv(...)], which is
    [None] when the variable is not set. *)
Definition verify_api_key (API_KEY_SECRET api_key : option string)
    : (HTTPException * dict string) + option string :=
  if bool_decide (api_key = None) || py_ne api_key API_KEY_SECRET
  then inl ({| status_code := HTTP_401_UNAUTHORIZED;
               detail := "Invalid or missing API Key in X-API-Key header" |},
            {[ "WWW-Authenticate" := "x-api-key" ]})
  else inr api_key.

(** ** Sample payloads *)

Module Feed.

(** [c.upper()] for an ASCII character. *)
Definition upper_ascii (c : Ascii.ascii) : Ascii.ascii :=
  let n := Ascii.nat_of_ascii c in
  if (97 <=? n)%nat && (n <=? 122)%nat then Ascii.ascii_of_nat (n - 32) else c.

(** [s.upper()] for a string of ASCII characters. *)
Fixpoint upper (s : string) : string :=
  match s with
  | EmptyString => EmptyString
  | String c s' => String (upper_ascii c) (upper s')
  end.

Definition btc_coin : dict value :=
  {[ "symbol" := VStr "btc"; "name" := VStr "Bitcoin";
     "image" := VStr "url"; "market_cap" := VInt 900000000000;
     "market_cap_rank" := VInt 1 ]}.

(** A coin whose symbol is JSON [null]. *)
Definition null_coin : dict value :=
  {[ "symbol" := VNone; "name" := VStr "Nameless" ]}.

Definition btc_ticker : dict value :=
  {[ "symbol" := VStr "BTCUSDT"; "lastPrice" := VStr "50000";
     "price24hPcnt" := VStr "0.02"; "volume24h" := VStr "1000" ]}.

Definition eth_ticker : dict value :=
  {[ "symbol" := VStr "ETHBTC"; "lastPrice" := VStr "0.06" ]}.

(** A Bybit body with the given [retCode] and [result.list]. *)
Definition bybit_body (retCode lst : value) : http_answer :=
  Body (VDict {[ "retCode" := retCode;
                 "result" := VDict {[ "list" := lst ]} ]}).

(** Both providers answer; one ticker has a JSON [null] symbol. *)
Definition null_symbol_net : Network :=
  {| coingecko_answer := CoinGeckoBody [btc_coin];
     tickers_answer :=
       bybit_body (VInt 0)
         (VList [VDict btc_ticker; VDict {[ "symbol" := VNone ]}]);
     kline_answer := λ _, Raised;
     latency := 1%float |}.

(** Both providers answer as in the first scenario. *)
Definition ok_net : Network :=
  {| coingecko_answer := CoinGeckoBody [btc_coin];
     tickers_answer :=
       bybit_body (VInt 0) (VList [VDict btc_ticker; VDict eth_ticker]);
     kline_answer :=
       λ _, bybit_body (VBool false) (candles_value [Sample.candle]);
     latency := 1%float |}.

End Feed.

(** * Properties *)

(** ** Built-ins *)

Lemma endswith_spec (s suffix : string) :
  Str.endswith s suffix = true ↔ ∃ p, s = p +:+ suffix.
Proof.
  induction s as [|c s IH]; cbn [Str.endswith].
  - rewrite orb_false_r. split.
    + intros H%String.eqb_eq. exists "". by subst.
    + intros [p Hp]. apply String.eqb_eq.
      destruct p; simpl in Hp; [done | discriminate].
  - rewrite orb_true_iff, IH. split.
    + intros [H%String.eqb_eq | [p ->]].
      * exists "". by subst.
      * by exists (String c p).
    + intros [[|c' p] Hp]; simpl in Hp.
      * left. apply String.eqb_eq. done.
      * right. exists p. by injection Hp.
Qed.

Example replace_BTCUSDT : Str.replace "BTCUSDT" QUOTE "" = "BTC".
Proof. reflexivity. Qed.

Example replace_is_not_overlapping : Str.replace "aaa" "aa" "b" = "ba".
Proof. reflexivity. Qed.

(** When no occurrence of "USDT" begins inside [base], removing every
    occurrence from [base ++ "USDT"] removes just the trailing one. *)
Lemma replace_strips_single_suffix (base : string) :
  (∀ p q, base = p +:+ q → q ≠ "" →
          String.prefix QUOTE (q +:+ QUOTE) = false) →
  Str.replace (base +:+ QUOTE) QUOTE "" = base.
Proof.
  unfold Str.replace. induction base as [|c base IH]; intros Hfree.
  - reflexivity.
  - change (String c base +:+ QUOTE) with (String c (base +:+ QUOTE)).
    cbn [Str.replace_from].
    change (String c (base +:+ QUOTE)) with (String c base +:+ QUOTE).
    rewrite (Hfree "" (String c base)) by done.
    change (String c base +:+ QUOTE) with (String c (base +:+ QUOTE)).
    f_equal. apply IH. intros p q -> Hq.
    by apply (Hfree (String c p) q).
Qed.

(** ** Aggregator *)

Section Aggregator.

Variable coingecko_data : dict (dict value).

(** What the loop leaves under each key. *)
Lemma aggregate_data_lookup (bybit_data : dict (dict value)) (symbol : string) :
  aggregate_data coingecko_data bybit_data !! symbol =
  if Str.endswith symbol QUOTE
  then instrument_record (Str.replace symbol QUOTE "")
         (coingecko_data !! Str.replace symbol QUOTE "")
       <$> bybit_data !! symbol
  else None.
Proof.
  unfold aggregate_data. revert symbol.
  apply (map_fold_weak_ind
           (λ r m, ∀ k, r !! k =
              if Str.endswith k QUOTE
              then instrument_record (Str.replace k QUOTE "")
                     (coingecko_data !! Str.replace k QUOTE "") <$> m !! k
              else None)).
  - intros k. rewrite !lookup_empty. by destruct (Str.endswith k QUOTE).
  - intros i x m r Hi IH k. unfold aggregate_step.
    destruct (decide (i = k)) as [->|Hne].
    + destruct (Str.endswith k QUOTE) eqn:E; simpl.
      * by rewrite !lookup_insert_eq.
      * by rewrite IH, E.
    + destruct (Str.endswith i QUOTE); simpl.
      * rewrite !lookup_insert_ne by done. apply IH.
      * rewrite lookup_insert_ne by done. apply IH.
Qed.

Lemma aggregate_data_empty : aggregate_data coingecko_data ∅ = ∅.
Proof. apply map_eq. intros k. rewrite aggregate_data_lookup, !lookup_empty.
       by destruct (Str.endswith k QUOTE). Qed.

End Aggregator.

(** The two aggregation scenarios of the specification. *)
Example aggregate_scenario_BTCUSDT :
  aggregate_data Sample.markets Sample.tickers = {[ "BTCUSDT" := Sample.btc ]}.
Proof. vm_compute. reflexivity. Qed.

Example aggregate_scenario_ETHBTC :
  aggregate_data Sample.markets {[ "ETHBTC" := ∅ ]} = ∅.
Proof. vm_compute. reflexivity. Qed.

(** C4. The keys of the aggregator's output are exactly the keys of
    [tickerMap] that end with the quote suffix "USDT", whatever
    [marketCapMap] holds; so they are all keys of [tickerMap], and an empty
    [tickerMap] gives an empty output. *)
Theorem aggregate_data_keys (marketCapMap tickerMap : dict (dict value)) :
  dom (aggregate_data marketCapMap tickerMap)
    = filter (λ k, Str.endswith k "USDT" = true) (dom tickerMap)
  ∧ dom (aggregate_data marketCapMap tickerMap) ⊆ dom tickerMap
  ∧ aggregate_data marketCapMap ∅ = ∅.
Proof.
  assert (Hdom : dom (aggregate_data marketCapMap tickerMap)
                 = filter (λ k, Str.endswith k "USDT" = true) (dom tickerMap)).
  { apply set_eq. intros k.
    rewrite elem_of_filter, !elem_of_dom, aggregate_data_lookup.
    unfold QUOTE. destruct (Str.endswith k "USDT").
    - rewrite fmap_is_Some.
      split; [intros ?; split; [reflexivity | assumption] | by intros [_ ?]].
    - split; [by intros [? ?] | by intros [? _]]. }
  split; [exact Hdom |]. split.
  - rewrite Hdom. intros k. rewrite elem_of_filter. tauto.
  - apply aggregate_data_empty.
Qed.

(** C5, at a symbol in which "USDT" occurs twice: the symbol is retained,
    stripping the trailing "USDT" would leave "AUSDTB", and the base symbol
    the aggregator derives (visible as the fallback display name) is "AB":
    [replace] removed the inner occurrence as well. *)
Theorem base_coin_loses_inner_quote :
  Str.endswith "AUSDTBUSDT" "USDT" = true
  ∧ Str.removesuffix "AUSDTBUSDT" "USDT" = "AUSDTB"
  ∧ coinName <$> aggregate_data ∅ {[ "AUSDTBUSDT" := ∅ ]} !! "AUSDTBUSDT"
    = Some (VStr "AB").
Proof. vm_compute. done. Qed.

(** C6, at the symbol of C5 and a market-cap mapping with an entry under
    "AB" only.  The symbol is retained and its base symbol, "AUSDTB", has
    no market-cap entry, so the record should carry that name and null
    enrichment; the aggregator looks up "AB" instead and the record shows
    the name, logo, market cap and rank of that other coin.  With an empty
    market-cap mapping the enrichment is null but the name is "AB". *)
Theorem record_enriched_from_wrong_coin :
  Str.endswith "AUSDTBUSDT" "USDT" = true
  ∧ Str.removesuffix "AUSDTBUSDT" "USDT" = "AUSDTB"
  ∧ ({[ "AB" := {[ "coinName" := VStr "Alpha"; "coinLogoURL" := VStr "logo";
                   "marketCapUSD" := VInt 5; "marketCapRank" := VInt 7 ]} ]}
       : dict (dict value)) !! "AUSDTB" = None
  ∧ aggregate_data
      {[ "AB" := {[ "coinName" := VStr "Alpha"; "coinLogoURL" := VStr "logo";
                    "marketCapUSD" := VInt 5; "marketCapRank" := VInt 7 ]} ]}
      {[ "AUSDTBUSDT" := {[ "lastPrice" := VStr "1" ]} ]} !! "AUSDTBUSDT"
    = Some {| coinName := VStr "Alpha"; currentPrice := VStr "1";
              priceChange24hPcnt := VNone; volume24h := VNone;
              coinLogoURL := VStr "logo"; marketCapUSD := VInt 5;
              marketCapRank := VInt 7 |}
  ∧ aggregate_data ∅ {[ "AUSDTBUSDT" := {[ "lastPrice" := VStr "1" ]} ]}
      !! "AUSDTBUSDT"
    = Some {| coinName := VStr "AB"; currentPrice := VStr "1";
              priceChange24hPcnt := VNone; volume24h := VNone;
              coinLogoURL := VNone; marketCapUSD := VNone;
              marketCapRank := VNone |}.
Proof. vm_compute. done. Qed.

(** X19. For every retained symbol the price, change and volume fields are
    read from its ticker entry alone, null for a key the entry lacks.
    When the string the aggregator looks up, the symbol with every "USDT"
    removed, has no market-cap entry, the record gets that string as
    display name and null logo, market cap and rank. *)
Theorem aggregate_data_record (marketCapMap tickerMap : dict (dict value))
    (symbol : string) (bb_item : dict value) :
  tickerMap !! symbol = Some bb_item →
  Str.endswith symbol "USDT" = true →
  ∃ r, aggregate_data marketCapMap tickerMap !! symbol = Some r
    ∧ currentPrice r = py_get bb_item "lastPrice" VNone
    ∧ priceChange24hPcnt r = py_get bb_item "price24hPcnt" VNone
    ∧ volume24h r = py_get bb_item "volume24h" VNone
    ∧ (marketCapMap !! Str.replace symbol "USDT" "" = None →
         coinName r = VStr (Str.replace symbol "USDT" "")
         ∧ coinLogoURL r = VNone
         ∧ marketCapUSD r = VNone
         ∧ marketCapRank r = VNone).
Proof.
  intros Hbb Hend. eexists. split.
  - rewrite aggregate_data_lookup. unfold QUOTE. rewrite Hend, Hbb. reflexivity.
  - simpl. do 3 (split; [reflexivity |]).
    unfold QUOTE. intros ->. by cbn.
Qed.

Lemma aggregate_data_record_witness :
  ∃ r, aggregate_data ∅ Sample.tickers !! "BTCUSDT" = Some r
    ∧ currentPrice r = VStr "50000"
    ∧ priceChange24hPcnt r = VStr "0.02"
    ∧ volume24h r = VStr "1000"
    ∧ ((∅ : dict (dict value)) !! "BTC" = None →
         coinName r = VStr "BTC"
         ∧ coinLogoURL r = VNone
         ∧ marketCapUSD r = VNone
         ∧ marketCapRank r = VNone).
Proof.
  assert (Hbb : Sample.tickers !! "BTCUSDT"
                = Some {[ "lastPrice" := VStr "50000";
                          "price24hPcnt" := VStr "0.02";
                          "volume24h" := VStr "1000" ]})
    by (vm_compute; reflexivity).
  assert (Hend : Str.endswith "BTCUSDT" "USDT" = true) by reflexivity.
  pose proof (aggregate_data_record ∅ Sample.tickers "BTCUSDT" _ Hbb Hend) as H.
  vm_compute in H. vm_compute. exact H.
Defined.

(** ** Refresh orchestrator *)

Ltac unfold_handler :=
  unfold get_cached_aggregated_investment_data, gather, fetch_coingecko_data,
    fetch_bybit_spot_tickers, client_get, store_data, store_last_updated,
    read_cache, time_time, bind, ret, raise.

Lemma truthy_true {V} (d : dict V) : d ≠ ∅ → truthy d = true.
Proof. intros H. unfold truthy. by apply bool_decide_eq_true. Qed.

Lemma truthy_false {V} (d : dict V) : d = ∅ → truthy d = false.
Proof. intros H. unfold truthy. apply bool_decide_eq_false. by intros []. Qed.

Lemma truthy_nonempty {V} (d : dict V) : truthy d = true → d ≠ ∅.
Proof. unfold truthy. by intros H%bool_decide_eq_true. Qed.

Lemma truthy_empty_iff {V} (d : dict V) : truthy d = false ↔ d = ∅.
Proof.
  unfold truthy. rewrite bool_decide_eq_false. split.
  - intros H. destruct (decide (d = ∅)); [done | by destruct H].
  - by intros -> [].
Qed.

(** The three ways a request for the aggregated view can end. *)
Lemma handler_fresh (up : Upstream) (w : World) :
  cache_fresh (clock w) (data_cache w) = true →
  get_cached_aggregated_investment_data up w = (inr (data (data_cache w)), w).
Proof. intros H. unfold_handler. by rewrite H. Qed.

Lemma handler_refresh_ok (up : Upstream) (w : World) :
  cache_fresh (clock w) (data_cache w) = false →
  truthy (aggregate_data (coingecko_markets up) (bybit_tickers up)) = true →
  get_cached_aggregated_investment_data up w =
  (inr (aggregate_data (coingecko_markets up) (bybit_tickers up)),
   {| data_cache :=
        {| last_updated := clock w;
           data := aggregate_data (coingecko_markets up) (bybit_tickers up) |};
      clock := later (PrimFloat.add (clock w) (round_trip up))
                     (PrimFloat.add (clock w) (round_trip up));
      sent := (sent w ++ [ {| url := COINGECKO_API_URL;
                              params := COINGECKO_PARAMS |} ])
              ++ [ {| url := BYBIT_API_BASE_URL +:+ TICKERS_ENDPOINT;
                      params := {[ "category" := VStr "spot" ]} |} ] |}).
Proof. intros H1 H2. unfold_handler. rewrite H1. cbn. by rewrite H2. Qed.

Lemma handler_refresh_failed (up : Upstream) (w : World) :
  cache_fresh (clock w) (data_cache w) = false →
  truthy (aggregate_data (coingecko_markets up) (bybit_tickers up)) = false →
  ∃ w', data_cache w' = data_cache w ∧
    get_cached_aggregated_investment_data up w =
    (if truthy (data (data_cache w)) then inr (data (data_cache w))
     else inl {| status_code := 503;
                 detail := "Could not fetch data from external APIs and cache is empty." |},
     w').
Proof.
  intros H1 H2. unfold_handler. rewrite H1. cbn. rewrite H2. cbn.
  destruct (truthy (data (data_cache w)));
    (eexists; split; [| reflexivity]; reflexivity).
Qed.

(** C2. A non-empty cache younger than the freshness window of 300 seconds
    is returned at once: the handler answers with the cached mapping and
    leaves the world as it was, so no request is sent upstream. *)
Theorem fresh_hit_without_upstream_calls (up : Upstream) (w : World) :
  data (data_cache w) ≠ ∅ →
  PrimFloat.ltb (PrimFloat.sub (clock w) (last_updated (data_cache w)))
                300%float = true →
  (get_cached_aggregated_investment_data up w).1 = inr (data (data_cache w))
  ∧ sent (get_cached_aggregated_investment_data up w).2 = sent w
  ∧ (get_cached_aggregated_investment_data up w).2 = w.
Proof.
  intros Hdata Hage. rewrite handler_fresh; [done |].
  unfold cache_fresh, CACHE_DURATION_SECONDS.
  by rewrite Hage, (truthy_true _ Hdata).
Qed.

Lemma fresh_hit_without_upstream_calls_witness :
  (get_cached_aggregated_investment_data Sample.up_ok (Sample.warm 1299.5)).1
    = inr Sample.old_snapshot
  ∧ sent (get_cached_aggregated_investment_data Sample.up_ok
            (Sample.warm 1299.5)).2 = []
  ∧ (get_cached_aggregated_investment_data Sample.up_ok (Sample.warm 1299.5)).2
    = Sample.warm 1299.5.
Proof.
  apply (fresh_hit_without_upstream_calls Sample.up_ok (Sample.warm 1299.5)).
  - apply truthy_nonempty. vm_compute. reflexivity.
  - vm_compute. reflexivity.
Defined.

(** C1. When the refresh path runs and aggregation comes back empty while
    the cache holds a non-empty snapshot, of whatever age, the handler
    returns that snapshot and raises nothing; the cached data and its
    timestamp are what they were. *)
Theorem failed_refresh_serves_stale_snapshot (up : Upstream) (w : World) :
  cache_fresh (clock w) (data_cache w) = false →
  aggregate_data (coingecko_markets up) (bybit_tickers up) = ∅ →
  data (data_cache w) ≠ ∅ →
  (get_cached_aggregated_investment_data up w).1 = inr (data (data_cache w))
  ∧ data_cache (get_cached_aggregated_investment_data up w).2 = data_cache w.
Proof.
  intros Hrefresh Hagg Hdata.
  destruct (handler_refresh_failed up w Hrefresh (truthy_false _ Hagg))
    as (w' & Hcache & ->).
  by rewrite (truthy_true _ Hdata).
Qed.

Lemma failed_refresh_serves_stale_snapshot_witness :
  (get_cached_aggregated_investment_data Sample.up_down (Sample.warm 90000)).1
    = inr Sample.old_snapshot
  ∧ data_cache (get_cached_aggregated_investment_data Sample.up_down
                  (Sample.warm 90000)).2
    = {| last_updated := 1000%float; data := Sample.old_snapshot |}.
Proof.
  apply (failed_refresh_serves_stale_snapshot Sample.up_down
           (Sample.warm 90000)).
  - vm_compute. reflexivity.
  - vm_compute. reflexivity.
  - apply truthy_nonempty. vm_compute. reflexivity.
Defined.

(** C3. When aggregation comes back empty and the cache is empty, the
    refresh path has run, the handler raises the 503 service-unavailable
    error, and the cache is as before: still empty, timestamp untouched. *)
Theorem failed_refresh_without_snapshot (up : Upstream) (w : World) :
  aggregate_data (coingecko_markets up) (bybit_tickers up) = ∅ →
  data (data_cache w) = ∅ →
  cache_fresh (clock w) (data_cache w) = false
  ∧ (get_cached_aggregated_investment_data up w).1
    = inl {| status_code := 503;
             detail := "Could not fetch data from external APIs and cache is empty." |}
  ∧ data_cache (get_cached_aggregated_investment_data up w).2 = data_cache w
  ∧ data (data_cache (get_cached_aggregated_investment_data up w).2) = ∅.
Proof.
  intros Hagg Hdata.
  assert (Hrefresh : cache_fresh (clock w) (data_cache w) = false).
  { unfold cache_fresh. by rewrite (truthy_false _ Hdata), andb_false_r. }
  split; [exact Hrefresh |].
  destruct (handler_refresh_failed up w Hrefresh (truthy_false _ Hagg))
    as (w' & Hcache & ->).
  rewrite (truthy_false _ Hdata). cbn. by rewrite Hcache.
Qed.

Lemma failed_refresh_without_snapshot_witness :
  cache_fresh 1000%float initial_cache = false
  ∧ (get_cached_aggregated_investment_data Sample.up_down (Sample.cold 1000)).1
    = inl {| status_code := 503;
             detail := "Could not fetch data from external APIs and cache is empty." |}
  ∧ data_cache (get_cached_aggregated_investment_data Sample.up_down
                  (Sample.cold 1000)).2 = initial_cache
  ∧ data (data_cache (get_cached_aggregated_investment_data Sample.up_down
                        (Sample.cold 1000)).2) = ∅.
Proof.
  apply (failed_refresh_without_snapshot Sample.up_down (Sample.cold 1000)).
  - vm_compute. reflexivity.
  - reflexivity.
Defined.

(** C7, as stated, fails: a cold cache at second 1000 and two concurrent
    upstream calls of 2.5 seconds each.  The refresh succeeds and the
    snapshot is written when the clock reads 1002.5, but the timestamp
    stored with it is 1000, the reading taken when the request came in. *)
Lemma refresh_timestamp_is_not_write_time :
  cache_fresh 1000%float initial_cache = false
  ∧ (get_cached_aggregated_investment_data Sample.up_ok (Sample.cold 1000)).1
    = inr {[ "BTCUSDT" := Sample.btc ]}
  ∧ last_updated (data_cache (get_cached_aggregated_investment_data
                                Sample.up_ok (Sample.cold 1000)).2)
    = 1000%float
  ∧ clock (get_cached_aggregated_investment_data
             Sample.up_ok (Sample.cold 1000)).2 = 1002.5%float
  ∧ PrimFloat.eqb 1000 1002.5 = false.
Proof. vm_compute. done. Qed.

(** C7, amended. When the refresh path runs and aggregation gives a
    non-empty mapping, the handler stores that mapping as the snapshot,
    sets the stored timestamp to the clock reading taken at the start of
    the request, before the upstream calls, and returns the new mapping. *)
Theorem successful_refresh_stores_snapshot (up : Upstream) (w : World) :
  cache_fresh (clock w) (data_cache w) = false →
  aggregate_data (coingecko_markets up) (bybit_tickers up) ≠ ∅ →
  (get_cached_aggregated_investment_data up w).1
    = inr (aggregate_data (coingecko_markets up) (bybit_tickers up))
  ∧ data (data_cache (get_cached_aggregated_investment_data up w).2)
    = aggregate_data (coingecko_markets up) (bybit_tickers up)
  ∧ last_updated (data_cache (get_cached_aggregated_investment_data up w).2)
    = clock w.
Proof.
  intros Hrefresh Hagg.
  by rewrite (handler_refresh_ok up w Hrefresh (truthy_true _ Hagg)).
Qed.

Lemma successful_refresh_stores_snapshot_witness :
  (get_cached_aggregated_investment_data Sample.up_ok (Sample.warm 1300)).1
    = inr {[ "BTCUSDT" := Sample.btc ]}
  ∧ data (data_cache (get_cached_aggregated_investment_data Sample.up_ok
                        (Sample.warm 1300)).2)
    = {[ "BTCUSDT" := Sample.btc ]}
  ∧ last_updated (data_cache (get_cached_aggregated_investment_data
                                Sample.up_ok (Sample.warm 1300)).2)
    = 1300%float.
Proof.
  assert (Hrefresh : cache_fresh (clock (Sample.warm 1300))
                       (data_cache (Sample.warm 1300)) = false)
    by (vm_compute; reflexivity).
  assert (Hagg : aggregate_data (coingecko_markets Sample.up_ok)
                   (bybit_tickers Sample.up_ok) ≠ ∅)
    by (apply truthy_nonempty; vm_compute; reflexivity).
  pose proof (successful_refresh_stores_snapshot Sample.up_ok
                (Sample.warm 1300) Hrefresh Hagg) as H.
  vm_compute in H. vm_compute. exact H.
Defined.

(** ** The invariant along a run *)

Lemma fetch_bybit_klines_cache (up : Upstream) (symbol interval : option string)
    (start_time end_time : option Z) (limit : Z) (w : World) :
  data_cache (fetch_bybit_klines up symbol interval start_time end_time
                                 limit w).2 = data_cache w.
Proof.
  unfold fetch_bybit_klines, client_get, bind, ret. cbn.
  destruct (bybit_kline up _) as [|[[| |]|] [|]]; reflexivity.
Qed.

Lemma get_klines_cache (up : Upstream) (symbol interval : option string)
    (start_time end_time : option Z) (limit : Z) (w : World) :
  data_cache (get_klines up symbol interval start_time end_time limit w).2
  = data_cache w.
Proof.
  unfold get_klines.
  destruct (negb (str_truthy symbol) || negb (str_truthy interval));
    [reflexivity |].
  unfold bind.
  pose proof (fetch_bybit_klines_cache up symbol interval start_time end_time
                limit w) as H.
  destruct (fetch_bybit_klines up symbol interval start_time end_time limit w)
    as [[e | [|c cs]] w']; exact H.
Qed.

(** Serving a request either leaves the cache alone or is a successful
    refresh, which stores the new snapshot under the arrival time. *)
Lemma serve_cache (ev : Event) (w : World) :
  data_cache (serve ev w).2 = data_cache w
  ∨ ∃ d, refreshed_with ev w d
       ∧ (serve ev w).1 = Snapshot d
       ∧ data_cache (serve ev w).2
         = {| last_updated := arrival ev; data := d |}.
Proof.
  unfold serve, lift, refreshed_with.
  destruct (request ev) as [|symbol interval start_time end_time limit] eqn:Hreq.
  - set (w0 := {| data_cache := data_cache w; clock := arrival ev;
                  sent := sent w |}).
    destruct (cache_fresh (clock w0) (data_cache w0)) eqn:Hfresh.
    + left. by rewrite handler_fresh.
    + destruct (truthy (aggregate_data (coingecko_markets (upstream ev))
                          (bybit_tickers (upstream ev)))) eqn:Hagg.
      * right. eexists. rewrite (handler_refresh_ok _ w0 Hfresh Hagg). cbn.
        repeat split; try done. by apply truthy_nonempty.
      * left.
        destruct (handler_refresh_failed _ w0 Hfresh Hagg) as (w' & Hc & ->).
        exact Hc.
  - left. cbn. by rewrite get_klines_cache.
Qed.

Lemma serve_cache_inv (ev : Event) (w : World) :
  timestamp_unset (arrival ev) = false →
  cache_inv (data_cache w) → cache_inv (data_cache (serve ev w).2).
Proof.
  intros Hclock Hinv.
  destruct (serve_cache ev w) as [-> | (d & (_ & _ & _ & Hd) & _ & ->)];
    [done |].
  left. by split.
Qed.

Lemma run_cache_inv (evs : list Event) (w : World) :
  Forall (λ ev, timestamp_unset (arrival ev) = false) evs →
  cache_inv (data_cache w) → cache_inv (data_cache (run evs w)).
Proof.
  intros Hclock. revert w.
  induction Hclock as [|ev evs Hev _ IH]; intros w Hinv; [done |].
  apply IH. by apply serve_cache_inv.
Qed.

Lemma initial_cache_inv : cache_inv initial_cache.
Proof. right. by split. Qed.

(** C8. The cache-state invariant: the initial cache satisfies it, and a
    run of requests, none of which arrives at clock reading 0 (the value
    that stands for "unset"), started in a state that satisfies it ends in
    a state that satisfies it.  A single request either leaves the cache
    exactly as it was or is a successful refresh, which is the only thing
    that replaces the snapshot. *)
Theorem cache_invariant (evs : list Event) (w : World) :
  Forall (λ ev, timestamp_unset (arrival ev) = false) evs →
  cache_inv (data_cache w) →
  cache_inv (data_cache initial_world)
  ∧ cache_inv (data_cache (run evs w))
  ∧ ∀ ev, data_cache (serve ev w).2 = data_cache w
        ∨ ∃ d, refreshed_with ev w d
             ∧ (serve ev w).1 = Snapshot d
             ∧ data_cache (serve ev w).2
               = {| last_updated := arrival ev; data := d |}.
Proof.
  intros Hclock Hinv. split; [apply initial_cache_inv |].
  split; [by apply run_cache_inv |].
  intros ev. apply serve_cache.
Qed.

Lemma cache_invariant_witness :
  cache_inv (data_cache initial_world)
  ∧ cache_inv (data_cache (run Sample.day initial_world)).
Proof.
  assert (Hclock : Forall (λ ev, timestamp_unset (arrival ev) = false)
                          Sample.day)
    by (repeat constructor).
  assert (Hinv : cache_inv (data_cache initial_world))
    by (right; split; reflexivity).
  pose proof (cache_invariant Sample.day initial_world Hclock Hinv) as H.
  split; [exact (proj1 H) | exact (proj1 (proj2 H))].
Defined.

Example run_day :
  data_cache (run Sample.day initial_world)
  = {| last_updated := 1010%float; data := {[ "BTCUSDT" := Sample.btc ]} |}.
Proof. vm_compute. reflexivity. Qed.

(** ** Kline handler *)

Lemma str_truthy_false (s : option string) :
  str_truthy s = false ↔ missing_or_empty s.
Proof.
  unfold missing_or_empty. destruct s as [s|]; cbn.
  - rewrite negb_false_iff, String.eqb_eq. split.
    + intros ->. by right.
    + intros [? | [= ->]]; done.
  - split; [by left | done].
Qed.

Lemma str_truthy_true (s : option string) :
  str_truthy s = true ↔ ¬ missing_or_empty s.
Proof.
  rewrite <- str_truthy_false. by destruct (str_truthy s).
Qed.

(** The fetcher absorbs every failure: it always returns a list. *)
Lemma fetch_bybit_klines_returns (up : Upstream)
    (symbol interval : option string) (start_time end_time : option Z)
    (limit : Z) (w : World) :
  ∃ klines,
    fetch_bybit_klines up symbol interval start_time end_time limit w
    = (inr klines,
       {| data_cache := data_cache w;
          clock := PrimFloat.add (clock w) (round_trip up);
          sent := sent w ++
            [ {| url := "https://api.bybit.com/v5/market/kline";
                 params := kline_params symbol interval start_time end_time
                                        limit |} ] |}).
Proof.
  unfold fetch_bybit_klines, client_get, bind, ret. cbn.
  destruct (bybit_kline up _) as [|[[| |]|] [|]]; by eexists.
Qed.

(** C9. A klines request whose symbol or interval is missing or empty is
    rejected with status 400 in an unchanged world, so before any upstream
    call.  Otherwise the fetcher is called and returns a list: if the list
    is empty the handler raises 404, and if not it returns that list as it
    is. *)
Theorem get_klines_outcome (up : Upstream) (symbol interval : option string)
    (start_time end_time : option Z) (limit : Z) (w : World) :
  ∃ klines w',
    fetch_bybit_klines up symbol interval start_time end_time limit w
    = (inr klines, w')
    ∧ (missing_or_empty symbol ∨ missing_or_empty interval →
       get_klines up symbol interval start_time end_time limit w
       = (inl {| status_code := 400;
                 detail := "Symbol and interval are required query parameters." |},
          w))
    ∧ (¬ missing_or_empty symbol → ¬ missing_or_empty interval →
       klines = [] →
       get_klines up symbol interval start_time end_time limit w
       = (inl {| status_code := 404;
                 detail := "No kline data found for " +:+ str_format symbol
                           +:+ " at interval " +:+ str_format interval
                           +:+ ". Check symbol and interval validity." |},
          w'))
    ∧ (¬ missing_or_empty symbol → ¬ missing_or_empty interval →
       klines ≠ [] →
       get_klines up symbol interval start_time end_time limit w
       = (inr klines, w')).
Proof.
  destruct (fetch_bybit_klines_returns up symbol interval start_time end_time
              limit w) as [klines Hfetch].
  exists klines. eexists. split; [exact Hfetch |].
  unfold get_klines, raise. split; [| split].
  - intros [H%str_truthy_false | H%str_truthy_false]; rewrite H;
      [done | by rewrite orb_true_r].
  - intros Hs%str_truthy_true Hi%str_truthy_true ->.
    rewrite Hs, Hi. cbn. unfold bind. by rewrite Hfetch.
  - intros Hs%str_truthy_true Hi%str_truthy_true Hne.
    rewrite Hs, Hi. cbn. unfold bind. rewrite Hfetch.
    by destruct klines.
Qed.

Lemma get_klines_outcome_witness :
  get_klines Sample.up_ok (Some "BTCUSDT") None None None 1000
             (Sample.cold 1000)
  = (inl {| status_code := 400;
            detail := "Symbol and interval are required query parameters." |},
     Sample.cold 1000).
Proof.
  destruct (get_klines_outcome Sample.up_ok (Some "BTCUSDT") None None None
              1000 (Sample.cold 1000)) as (klines & w' & _ & H400 & _).
  apply H400. right. by left.
Defined.

Example get_klines_scenarios :
  (get_klines Sample.up_ok (Some "") (Some "60") None None 1000
              (Sample.cold 1000)).1
  = inl {| status_code := 400;
           detail := "Symbol and interval are required query parameters." |}
  ∧ (get_klines Sample.up_down (Some "BTCUSDT") (Some "60") None None 1000
                (Sample.cold 1000)).1
    = inl {| status_code := 404;
             detail := "No kline data found for BTCUSDT at interval 60. Check symbol and interval validity." |}
  ∧ (get_klines Sample.up_ok (Some "BTCUSDT") (Some "60") None None 1000
                (Sample.cold 1000)).1
    = inr [Sample.candle].
Proof. vm_compute. done. Qed.

(** C10. A [start_time] of 0 is left out of the parameters sent upstream,
    exactly as if no start time had been given, and likewise an [end_time]
    of 0: the [params] dictionary is the same, it has no "start" (or "end")
    key, and so the fetcher behaves identically. *)
Theorem zero_time_bound_is_omitted (symbol interval : option string)
    (start_time end_time : option Z) (limit : Z) :
  kline_params symbol interval (Some 0%Z) end_time limit
    = kline_params symbol interval None end_time limit
  ∧ kline_params symbol interval start_time (Some 0%Z) limit
    = kline_params symbol interval start_time None limit
  ∧ kline_params symbol interval (Some 0%Z) end_time limit !! "start" = None
  ∧ kline_params symbol interval start_time (Some 0%Z) limit !! "end" = None
  ∧ (∀ up w,
       fetch_bybit_klines up symbol interval (Some 0%Z) end_time limit w
       = fetch_bybit_klines up symbol interval None end_time limit w)
  ∧ (∀ up w,
       fetch_bybit_klines up symbol interval start_time (Some 0%Z) limit w
       = fetch_bybit_klines up symbol interval start_time None limit w).
Proof.
  repeat split; try reflexivity.
  - unfold kline_params, set_if_truthy. cbn.
    destruct end_time as [e|]; [destruct (int_truthy (Some e)) |];
      reflexivity.
  - unfold kline_params, set_if_truthy. cbn.
    destruct start_time as [t|]; [destruct (int_truthy (Some t)) |];
      reflexivity.
Qed.

Example nonzero_time_bounds_are_sent :
  kline_params (Some "BTCUSDT") (Some "60") (Some 1%Z) (Some 2%Z) 1000
  = {[ "category" := VStr "spot"; "symbol" := VStr "BTCUSDT";
       "interval" := VStr "60"; "limit" := VInt 1000;
       "start" := VInt 1; "end" := VInt 2 ]}.
Proof. vm_compute. reflexivity. Qed.


(** * Further properties *)

#[local] Set Warnings "-clear-no-such-hyp".

(** ** Aggregator *)

(** X1. The aggregated mapping is empty exactly when no key of the ticker
    mapping ends with "USDT", whatever the market-cap mapping holds. *)
Theorem aggregate_data_empty_iff (coingecko_data bybit_data : dict (dict value)) :
  aggregate_data coingecko_data bybit_data = ∅
  ↔ ∀ symbol, symbol ∈ dom bybit_data → Str.endswith symbol "USDT" = false.
Proof.
  rewrite map_empty. split.
  - intros Hnone symbol [item Hitem]%elem_of_dom.
    specialize (Hnone symbol). rewrite aggregate_data_lookup, Hitem in Hnone.
    unfold QUOTE in Hnone. by destruct (Str.endswith symbol "USDT").
  - intros Hkeys symbol. rewrite aggregate_data_lookup. unfold QUOTE.
    destruct (Str.endswith symbol "USDT") eqn:Hend; [| done].
    destruct (bybit_data !! symbol) as [item|] eqn:Hitem; [| done].
    rewrite Hkeys in Hend; [done |]. apply elem_of_dom. by eexists.
Qed.

(** X2. Aggregation works symbol by symbol: the aggregate of a union of
    two ticker mappings (the left one winning on common keys) is the union
    of their aggregates. *)
Theorem aggregate_data_union (coingecko_data bb1 bb2 : dict (dict value)) :
  aggregate_data coingecko_data (bb1 ∪ bb2)
  = aggregate_data coingecko_data bb1 ∪ aggregate_data coingecko_data bb2.
Proof.
  apply map_eq. intros symbol.
  rewrite lookup_union, !aggregate_data_lookup, lookup_union.
  destruct (Str.endswith symbol QUOTE); [| done].
  by destruct (bb1 !! symbol), (bb2 !! symbol).
Qed.

(** X3. A market-cap entry that is the empty dictionary counts as no entry
    at all: storing [{}] under a coin gives the same aggregate as removing
    the coin. *)
Theorem aggregate_data_empty_entry (coingecko_data bybit_data : dict (dict value))
    (coin : string) :
  aggregate_data (<[ coin := ∅ ]> coingecko_data) bybit_data
  = aggregate_data (delete coin coingecko_data) bybit_data.
Proof.
  apply map_eq. intros symbol. rewrite !aggregate_data_lookup.
  destruct (Str.endswith symbol QUOTE); [| done].
  destruct (bybit_data !! symbol) as [item|]; [| done]. cbn. f_equal.
  destruct (decide (coin = Str.replace symbol QUOTE "")) as [-> | Hne].
  - by rewrite lookup_insert_eq, lookup_delete_eq.
  - by rewrite lookup_insert_ne, lookup_delete_ne.
Qed.

(** X4. A retained symbol whose derived base symbol has a non-empty entry
    in the market-cap mapping takes logo, market cap and rank from that
    entry (null for a key the entry lacks), and its display name too,
    falling back to the base symbol only when the entry has no "coinName"
    key. *)
Theorem aggregate_data_enriched (coingecko_data bybit_data : dict (dict value))
    (symbol : string) (bb_item cg_item : dict value) :
  bybit_data !! symbol = Some bb_item →
  Str.endswith symbol "USDT" = true →
  coingecko_data !! Str.replace symbol "USDT" "" = Some cg_item →
  cg_item ≠ ∅ →
  ∃ r, aggregate_data coingecko_data bybit_data !! symbol = Some r
    ∧ coinName r
      = default (VStr (Str.replace symbol "USDT" "")) (cg_item !! "coinName")
    ∧ coinLogoURL r = default VNone (cg_item !! "coinLogoURL")
    ∧ marketCapUSD r = default VNone (cg_item !! "marketCapUSD")
    ∧ marketCapRank r = default VNone (cg_item !! "marketCapRank").
Proof.
  intros Hbb Hend Hcg Hne. eexists. split.
  - rewrite aggregate_data_lookup. unfold QUOTE. rewrite Hend, Hbb. reflexivity.
  - unfold QUOTE. rewrite Hcg. cbn. unfold if_cg_item.
    by rewrite (truthy_true _ Hne).
Qed.

Lemma aggregate_data_enriched_witness :
  ∃ r, aggregate_data Sample.markets Sample.tickers !! "BTCUSDT" = Some r
    ∧ coinName r = VStr "Bitcoin"
    ∧ coinLogoURL r = VStr "url"
    ∧ marketCapUSD r = VInt 900000000000
    ∧ marketCapRank r = VInt 1.
Proof.
  assert (Hbb : Sample.tickers !! "BTCUSDT"
                = Some {[ "lastPrice" := VStr "50000";
                          "price24hPcnt" := VStr "0.02";
                          "volume24h" := VStr "1000" ]})
    by (vm_compute; reflexivity).
  assert (Hend : Str.endswith "BTCUSDT" "USDT" = true) by reflexivity.
  assert (Hcg : Sample.markets !! Str.replace "BTCUSDT" "USDT" ""
                = Some {[ "marketCapUSD" := VInt 900000000000;
                          "marketCapRank" := VInt 1;
                          "coinName" := VStr "Bitcoin";
                          "coinLogoURL" := VStr "url" ]})
    by (vm_compute; reflexivity).
  assert (Hne : ({[ "marketCapUSD" := VInt 900000000000;
                    "marketCapRank" := VInt 1;
                    "coinName" := VStr "Bitcoin";
                    "coinLogoURL" := VStr "url" ]} : dict value) ≠ ∅)
    by (apply truthy_nonempty; vm_compute; reflexivity).
  pose proof (aggregate_data_enriched Sample.markets Sample.tickers "BTCUSDT"
                _ _ Hbb Hend Hcg Hne) as H.
  vm_compute in H. vm_compute. exact H.
Defined.

(** X5. For a pair [base ++ "USDT"] in which no occurrence of "USDT"
    begins inside [base], the pair is retained, the base symbol the
    aggregator derives is [base], and the record is built from the
    market-cap entry found under [base]. *)
Theorem aggregate_data_plain_pair (coingecko_data bybit_data : dict (dict value))
    (base : string) (bb_item : dict value) :
  (∀ p q, base = p +:+ q → q ≠ "" →
          String.prefix "USDT" (q +:+ "USDT") = false) →
  bybit_data !! (base +:+ "USDT") = Some bb_item →
  Str.replace (base +:+ "USDT") "USDT" "" = base
  ∧ aggregate_data coingecko_data bybit_data !! (base +:+ "USDT")
    = Some (instrument_record base (coingecko_data !! base) bb_item).
Proof.
  intros Hfree Hbb.
  pose proof (replace_strips_single_suffix base Hfree) as Hbase.
  unfold QUOTE in Hbase. split; [exact Hbase |].
  rewrite aggregate_data_lookup. unfold QUOTE.
  rewrite (proj2 (endswith_spec (base +:+ "USDT") "USDT")) by (by exists base).
  by rewrite Hbase, Hbb.
Qed.

Lemma aggregate_data_plain_pair_witness :
  Str.replace ("BTC" +:+ "USDT") "USDT" "" = "BTC"
  ∧ aggregate_data Sample.markets Sample.tickers !! ("BTC" +:+ "USDT")
    = Some Sample.btc.
Proof.
  assert (Hfree : ∀ p q, "BTC" = p +:+ q → q ≠ "" →
                         String.prefix "USDT" (q +:+ "USDT") = false).
  { intros p q Hpq Hq.
    destruct p as [|a [|b [|c [|d p]]]]; vm_compute in Hpq;
      simplify_eq; done. }
  assert (Hbb : Sample.tickers !! ("BTC" +:+ "USDT")
                = Some {[ "lastPrice" := VStr "50000";
                          "price24hPcnt" := VStr "0.02";
                          "volume24h" := VStr "1000" ]})
    by (vm_compute; reflexivity).
  pose proof (aggregate_data_plain_pair Sample.markets Sample.tickers "BTC" _
                Hfree Hbb) as [H1 H2].
  split; [exact H1 |]. rewrite H2. vm_compute. reflexivity.
Defined.

(** ** Refresh orchestrator *)

(** X7. A request for the aggregated view sends nothing upstream on a
    fresh hit, and otherwise exactly two requests, to CoinGecko and then
    to the Bybit tickers endpoint, whether the refresh succeeds or not. *)
Theorem handler_requests (up : Upstream) (w : World) :
  sent (get_cached_aggregated_investment_data up w).2
  = if cache_fresh (clock w) (data_cache w) then sent w
    else (sent w ++
          [ {| url := "https://api.coingecko.com/api/v3/coins/markets";
               params := {[ "vs_currency" := VStr "usd"; "per_page" := VInt 250;
                            "page" := VInt 1; "sparkline" := VBool false ]} |};
            {| url := "https://api.bybit.com/v5/market/tickers";
               params := {[ "category" := VStr "spot" ]} |} ])%list.
Proof.
  destruct (cache_fresh (clock w) (data_cache w)) eqn:Hfresh.
  - by rewrite handler_fresh.
  - unfold_handler. rewrite Hfresh. cbn.
    destruct (truthy (aggregate_data _ _)); cbn.
    + by rewrite <- app_assoc.
    + destruct (truthy (data (data_cache w))); cbn; by rewrite <- app_assoc.
Qed.

(** X9. A successful refresh followed by a second request less than 300
    seconds after the first one's arrival: the second request is answered
    from the cache with the snapshot the first one stored, sends nothing
    upstream and leaves the cache alone, whatever the providers would have
    said. *)
Theorem refresh_then_fresh_hit (ev1 ev2 : Event) (w : World) :
  request ev1 = AggregatedData →
  request ev2 = AggregatedData →
  cache_fresh (arrival ev1) (data_cache w) = false →
  aggregate_data (coingecko_markets (upstream ev1))
                 (bybit_tickers (upstream ev1)) ≠ ∅ →
  PrimFloat.ltb (PrimFloat.sub (arrival ev2) (arrival ev1)) 300%float = true →
  (serve ev2 (serve ev1 w).2).1
    = Snapshot (aggregate_data (coingecko_markets (upstream ev1))
                               (bybit_tickers (upstream ev1)))
  ∧ sent (serve ev2 (serve ev1 w).2).2 = sent (serve ev1 w).2
  ∧ data_cache (serve ev2 (serve ev1 w).2).2 = data_cache (serve ev1 w).2.
Proof.
  intros Hreq1 Hreq2 Hstale Hagg Hage.
  unfold serve, lift. rewrite Hreq1, Hreq2.
  rewrite (handler_refresh_ok (upstream ev1)
             {| data_cache := data_cache w; clock := arrival ev1;
                sent := sent w |} Hstale (truthy_true _ Hagg)).
  cbn [fst snd data_cache clock sent]. rewrite handler_fresh; [done |].
  unfold cache_fresh, CACHE_DURATION_SECONDS.
  cbn [clock data_cache last_updated data].
  by rewrite Hage, (truthy_true _ Hagg).
Qed.

Lemma refresh_then_fresh_hit_witness :
  (serve {| arrival := 1299%float; request := AggregatedData;
            upstream := Sample.up_down |}
         (serve {| arrival := 1000%float; request := AggregatedData;
                   upstream := Sample.up_ok |} initial_world).2).1
    = Snapshot {[ "BTCUSDT" := Sample.btc ]}.
Proof.
  assert (Hstale : cache_fresh 1000%float (data_cache initial_world) = false)
    by (vm_compute; reflexivity).
  assert (Hagg : aggregate_data Sample.markets Sample.tickers ≠ ∅)
    by (apply truthy_nonempty; vm_compute; reflexivity).
  assert (Hage : PrimFloat.ltb (PrimFloat.sub 1299 1000) 300 = true)
    by (vm_compute; reflexivity).
  pose proof (refresh_then_fresh_hit
                {| arrival := 1000%float; request := AggregatedData;
                   upstream := Sample.up_ok |}
                {| arrival := 1299%float; request := AggregatedData;
                   upstream := Sample.up_down |}
                initial_world eq_refl eq_refl Hstale Hagg Hage) as H.
  destruct H as [H _]. rewrite H. vm_compute. reflexivity.
Defined.

(** ** Kline handler *)

(** X11. The parameters sent for a klines request: category "spot", the
    symbol and the interval as given, the limit as given whatever its
    value, a "start" key exactly when a non-zero start time was given and
    an "end" key exactly when a non-zero end time was given, each with the
    given value, and no other key. *)
Theorem kline_params_lookup (symbol interval : option string)
    (start_time end_time : option Z) (limit : Z) :
  kline_params symbol interval start_time end_time limit !! "category"
    = Some (VStr "spot")
  ∧ kline_params symbol interval start_time end_time limit !! "symbol"
    = Some (str_value symbol)
  ∧ kline_params symbol interval start_time end_time limit !! "interval"
    = Some (str_value interval)
  ∧ kline_params symbol interval start_time end_time limit !! "limit"
    = Some (VInt limit)
  ∧ kline_params symbol interval start_time end_time limit !! "start"
    = (if int_truthy start_time then VInt <$> start_time else None)
  ∧ kline_params symbol interval start_time end_time limit !! "end"
    = (if int_truthy end_time then VInt <$> end_time else None)
  ∧ dom (kline_params symbol interval start_time end_time limit)
    ⊆ {[ "category"; "symbol"; "interval"; "limit"; "start"; "end" ]}.
Proof.
  unfold kline_params, set_if_truthy.
  destruct start_time as [t|], end_time as [e|];
    try destruct (int_truthy (Some t)); try destruct (int_truthy (Some e));
    repeat split; try reflexivity;
    rewrite ?dom_insert_L, dom_singleton_L; set_solver.
Qed.

(** ** CoinGecko decoding *)

Section CoinGecko.

Variable upper : string → string.

Lemma coingecko_loop_app (l1 l2 : list (dict value)) (m : dict (dict value)) :
  coingecko_loop upper (l1 ++ l2) m
  = match coingecko_loop upper l1 m with
    | Some m' => coingecko_loop upper l2 m'
    | None => None
    end.
Proof.
  revert m. induction l1 as [|coin l1 IH]; intros m; [done |].
  cbn [app coingecko_loop].
  destruct (py_get coin "symbol" (VStr "")); try done.
  cbn zeta. by destruct (negb (String.eqb (upper s) "")).
Qed.

Lemma coingecko_loop_is_Some (raw_data : list (dict value))
    (m : dict (dict value)) :
  Forall (λ coin, coin_symbol upper coin ≠ None) raw_data →
  is_Some (coingecko_loop upper raw_data m).
Proof.
  intros Hall. revert m.
  induction Hall as [|coin rest Hcoin _ IH]; intros m; [by eexists |].
  cbn [coingecko_loop]. unfold coin_symbol in Hcoin.
  destruct (py_get coin "symbol" (VStr "")); try done.
  cbn zeta. by destruct (negb (String.eqb (upper s) "")).
Qed.

Lemma coingecko_loop_None (raw_data : list (dict value))
    (m : dict (dict value)) :
  Exists (λ coin, coin_symbol upper coin = None) raw_data →
  coingecko_loop upper raw_data m = None.
Proof.
  intros Hex. revert m.
  induction Hex as [coin rest Hcoin | coin rest _ IH]; intros m;
    cbn [coingecko_loop]; unfold coin_symbol in *.
  - by destruct (py_get coin "symbol" (VStr "")).
  - destruct (py_get coin "symbol" (VStr "")); try done.
    cbn zeta. by destruct (negb (String.eqb (upper s) "")).
Qed.

Lemma coingecko_loop_cons (coin : dict value) (rest : list (dict value))
    (m : dict (dict value)) (k : string) :
  coin_symbol upper coin = Some k →
  coingecko_loop upper (coin :: rest) m
  = coingecko_loop upper rest
      (if negb (String.eqb k "") then <[ k := coingecko_entry coin ]> m
       else m).
Proof.
  unfold coin_symbol. cbn [coingecko_loop].
  destruct (py_get coin "symbol" (VStr "")); try done.
  intros [= <-]. cbn zeta. by destruct (negb (String.eqb (upper s) "")).
Qed.

(** Where the entries of the loop's result come from. *)
Lemma coingecko_loop_lookup (raw_data : list (dict value))
    (m m' : dict (dict value)) (k : string) (d : dict value) :
  coingecko_loop upper raw_data m = Some m' →
  m' !! k = Some d →
  m !! k = Some d
  ∨ ∃ coin, coin ∈ raw_data ∧ coin_symbol upper coin = Some k ∧ k ≠ ""
          ∧ d = coingecko_entry coin.
Proof.
  revert m. induction raw_data as [|coin rest IH]; intros m Hloop Hk.
  - cbn in Hloop. left. congruence.
  - cbn [coingecko_loop] in Hloop.
    destruct (py_get coin "symbol" (VStr "")) as [| | | |s| |] eqn:Hsym;
      try done.
    cbn zeta in Hloop.
    destruct (String.eqb (upper s) "") eqn:Hempty; cbn [negb] in Hloop.
    + destruct (IH _ Hloop Hk) as [? | (c & ? & ? & ? & ?)]; [by left |].
      right. exists c. split; [by right | done].
    + destruct (IH _ Hloop Hk) as [Hins | (c & ? & ? & ? & ?)].
      * destruct (decide (upper s = k)) as [<- | Hne].
        -- rewrite lookup_insert_eq in Hins. right. exists coin.
           split; [by left |]. unfold coin_symbol. rewrite Hsym.
           split; [done |]. split; [| congruence].
           intros E. rewrite E in Hempty. done.
        -- rewrite lookup_insert_ne in Hins by done. by left.
      * right. exists c. split; [by right | done].
Qed.

(** X12. One coin whose "symbol" is present but not a string (JSON null,
    a number, a boolean) makes [fetch_coingecko_data] return [{}]: the
    exception is swallowed and the entries of all other coins are lost
    with it. *)
Theorem coingecko_bad_symbol_voids_all (raw_data : list (dict value))
    (coin : dict value) (v : value) :
  coin ∈ raw_data →
  coin !! "symbol" = Some v →
  (∀ s, v ≠ VStr s) →
  fetch_coingecko_data_result upper (CoinGeckoBody raw_data) = ∅.
Proof.
  intros Hin Hsym Hv. cbn. rewrite coingecko_loop_None; [done |].
  apply Exists_exists. exists coin. split; [done |].
  unfold coin_symbol, py_get. rewrite Hsym. cbn.
  destruct v as [| | | |s| |]; try done. by destruct (Hv s).
Qed.

(** X13. When every coin's symbol is a string (or absent), the entry filed
    under a non-empty key is the one built from the last coin of the list
    whose upper-cased symbol is that key, so later duplicates replace
    earlier ones; a key no coin has is absent, and nothing is ever filed
    under the empty key. *)
Theorem coingecko_lookup (raw_data : list (dict value)) (k : string) :
  Forall (λ coin, coin_symbol upper coin ≠ None) raw_data →
  fetch_coingecko_data_result upper (CoinGeckoBody raw_data) !! k
  = if decide (k = "") then None
    else coingecko_entry
         <$> last (filter (λ coin, coin_symbol upper coin = Some k) raw_data).
Proof.
  cbn [fetch_coingecko_data_result].
  induction raw_data as [|coin raw_data IH] using rev_ind; intros Hall.
  - cbn. rewrite lookup_empty. by case_decide.
  - apply Forall_app in Hall as [Hall Hcoin].
    rewrite Forall_singleton in Hcoin. specialize (IH Hall).
    rewrite coingecko_loop_app.
    destruct (coingecko_loop_is_Some raw_data ∅ Hall) as [m Hm].
    rewrite Hm in IH |- *. change (default ∅ (Some m)) with m in IH.
    rewrite filter_app, filter_cons, filter_nil.
    destruct (coin_symbol upper coin) as [k'|] eqn:Hsym; [| done].
    rewrite (coingecko_loop_cons _ _ _ _ Hsym). cbn [coingecko_loop default].
    destruct (String.eqb k' "") eqn:Hempty; cbn [negb]; unfold id.
    + apply String.eqb_eq in Hempty. rewrite IH.
      case_decide; [done |]. rewrite decide_False by congruence.
      by rewrite app_nil_r.
    + apply String.eqb_neq in Hempty.
      destruct (decide (k' = k)) as [<- | Hne].
      * rewrite lookup_insert_eq. rewrite decide_False by done.
        rewrite decide_True by done. by rewrite last_snoc.
      * rewrite lookup_insert_ne by done. rewrite IH.
        case_decide; [done |]. rewrite decide_False by congruence.
        by rewrite app_nil_r.
Qed.

End CoinGecko.

Lemma coingecko_bad_symbol_voids_all_witness :
  fetch_coingecko_data_result Feed.upper
    (CoinGeckoBody [Feed.btc_coin; Feed.null_coin]) = ∅.
Proof.
  apply (coingecko_bad_symbol_voids_all Feed.upper
           [Feed.btc_coin; Feed.null_coin] Feed.null_coin VNone).
  - apply list_elem_of_In. right. left. reflexivity.
  - vm_compute. reflexivity.
  - intros s. discriminate.
Defined.

Lemma coingecko_lookup_witness :
  fetch_coingecko_data_result Feed.upper
    (CoinGeckoBody [Feed.null_coin; Feed.btc_coin]) !! "BTC" = None
  ∧ fetch_coingecko_data_result Feed.upper
      (CoinGeckoBody [{[ "symbol" := VStr "Btc" ]}; Feed.btc_coin]) !! "BTC"
    = Some (coingecko_entry Feed.btc_coin).
Proof.
  split; [vm_compute; reflexivity |].
  assert (Hall : Forall (λ coin, coin_symbol Feed.upper coin ≠ None)
                   [{[ "symbol" := VStr "Btc" ]}; Feed.btc_coin])
    by (repeat constructor; vm_compute; discriminate).
  rewrite (coingecko_lookup Feed.upper _ "BTC" Hall).
  vm_compute. reflexivity.
Defined.

(** ** From the decoded answers to the aggregate *)

Lemma coingecko_entry_truthy (coin : dict value) :
  truthy (coingecko_entry coin) = true.
Proof. apply truthy_true. unfold coingecko_entry. apply insert_non_empty. Qed.

(** X16. With the market-cap mapping as [fetch_coingecko_data] builds it:
    whenever the base symbol of a retained pair is found there, the entry
    was built from a coin of the provider's list whose upper-cased symbol
    is that base symbol, and the record shows that coin's "name", "image",
    "market_cap" and "market_cap_rank", null where the coin lacks one.  In
    particular a listed coin without a name gets a null display name, not
    the base symbol. *)
Theorem aggregated_enrichment_from_coingecko (upper : string → string)
    (raw_data : list (dict value)) (bybit_data : dict (dict value))
    (symbol : string) (bb_item cg_item : dict value) :
  bybit_data !! symbol = Some bb_item →
  Str.endswith symbol "USDT" = true →
  fetch_coingecko_data_result upper (CoinGeckoBody raw_data)
    !! Str.replace symbol "USDT" "" = Some cg_item →
  ∃ coin r,
    coin ∈ raw_data
    ∧ coin_symbol upper coin = Some (Str.replace symbol "USDT" "")
    ∧ aggregate_data
        (fetch_coingecko_data_result upper (CoinGeckoBody raw_data))
        bybit_data !! symbol = Some r
    ∧ coinName r = py_get coin "name" VNone
    ∧ coinLogoURL r = py_get coin "image" VNone
    ∧ marketCapUSD r = py_get coin "market_cap" VNone
    ∧ marketCapRank r = py_get coin "market_cap_rank" VNone.
Proof.
  intros Hbb Hend Hcg.
  assert (∃ coin, coin ∈ raw_data
            ∧ coin_symbol upper coin = Some (Str.replace symbol "USDT" "")
            ∧ cg_item = coingecko_entry coin) as (coin & Hin & Hsym & ->).
  { cbn [fetch_coingecko_data_result] in Hcg.
    destruct (coingecko_loop upper raw_data ∅) as [m|] eqn:Hloop;
      cbn [default from_option id] in Hcg;
      [| by rewrite lookup_empty in Hcg].
    destruct (coingecko_loop_lookup upper _ _ _ _ _ Hloop Hcg)
      as [Hemp | (coin & ? & ? & _ & ?)]; [by rewrite lookup_empty in Hemp |].
    by exists coin. }
  exists coin. eexists. split; [done |]. split; [done |]. split.
  - rewrite aggregate_data_lookup. unfold QUOTE. rewrite Hend, Hbb, Hcg.
    reflexivity.
  - cbn. unfold if_cg_item. rewrite coingecko_entry_truthy. done.
Qed.

Lemma aggregated_enrichment_from_coingecko_witness :
  ∃ coin r,
    coin ∈ [Feed.btc_coin]
    ∧ coin_symbol Feed.upper coin = Some "BTC"
    ∧ aggregate_data
        (fetch_coingecko_data_result Feed.upper (CoinGeckoBody [Feed.btc_coin]))
        Sample.tickers !! "BTCUSDT" = Some r
    ∧ coinName r = py_get coin "name" VNone
    ∧ coinLogoURL r = py_get coin "image" VNone
    ∧ marketCapUSD r = py_get coin "market_cap" VNone
    ∧ marketCapRank r = py_get coin "market_cap_rank" VNone.
Proof.
  assert (Hbb : Sample.tickers !! "BTCUSDT"
                = Some {[ "lastPrice" := VStr "50000";
                          "price24hPcnt" := VStr "0.02";
                          "volume24h" := VStr "1000" ]})
    by (vm_compute; reflexivity).
  assert (Hend : Str.endswith "BTCUSDT" "USDT" = true) by reflexivity.
  assert (Hcg : fetch_coingecko_data_result Feed.upper
                  (CoinGeckoBody [Feed.btc_coin])
                  !! Str.replace "BTCUSDT" "USDT" ""
                = Some (coingecko_entry Feed.btc_coin))
    by (vm_compute; reflexivity).
  exact (aggregated_enrichment_from_coingecko Feed.upper [Feed.btc_coin]
           Sample.tickers "BTCUSDT" _ _ Hbb Hend Hcg).
Defined.

(** ** API key *)

(** X17. [verify_api_key] lets a request through, returning its key,
    exactly when a key was sent, a secret is configured, and the two are
    equal; in every other case, among them every request made while no
    secret is configured, it raises 401 with a "WWW-Authenticate" header. *)
Theorem verify_api_key_accepts_iff (API_KEY_SECRET api_key : option string) :
  (verify_api_key API_KEY_SECRET api_key = inr api_key
   ↔ ∃ k, api_key = Some k ∧ API_KEY_SECRET = Some k)
  ∧ (verify_api_key API_KEY_SECRET api_key = inr api_key
     ∨ verify_api_key API_KEY_SECRET api_key
       = inl ({| status_code := 401;
                 detail := "Invalid or missing API Key in X-API-Key header" |},
              {[ "WWW-Authenticate" := "x-api-key" ]}))
  ∧ ∃ e, verify_api_key None api_key = inl e.
Proof.
  unfold verify_api_key.
  destruct api_key as [k|], API_KEY_SECRET as [k'|]; cbn.
  - destruct (String.eqb_spec k k') as [-> | Hne]; cbn.
    + repeat split; eauto.
    + repeat split; eauto; try done.
      intros (k0 & [= ->] & [= ->]). done.
  - repeat split; eauto; try done. by intros (k0 & _ & ?).
  - repeat split; eauto; try done. by intros (k0 & ? & _).
  - repeat split; eauto; try done. by intros (k0 & ? & _).
Qed.

(** ** Bybit tickers decoding *)

Lemma tickers_comprehension_app (l1 l2 : list value) (acc : tickers_dict) :
  tickers_comprehension (l1 ++ l2) acc
  = match tickers_comprehension l1 acc with
    | Some acc' => tickers_comprehension l2 acc'
    | None => None
    end.
Proof.
  revert acc. induction l1 as [|item l1 IH]; intros acc; [done |].
  cbn [app tickers_comprehension].
  destruct item as [| | | | | |d]; try done.
  by destruct (d !! "symbol") as [[| | | |s| |]|].
Qed.

Lemma tickers_comprehension_ok (items : list value) (acc r : tickers_dict) :
  tickers_comprehension items acc = Some r →
  Forall (λ item, ticker_ok item = true) items.
Proof.
  revert acc. induction items as [|item items IH]; intros acc Hr; [done |].
  cbn [tickers_comprehension] in Hr.
  destruct item as [| | | | | |d]; try done.
  constructor; [| by destruct (d !! "symbol") as [[| | | |s| |]|]; eauto].
  cbn. by destruct (d !! "symbol") as [[| | | |s| |]|].
Qed.

Lemma has_symbol_true (s : string) (item : value) :
  has_symbol s item = true
  ↔ ∃ d, item = VDict d ∧ d !! "symbol" = Some (VStr s).
Proof.
  unfold has_symbol. split.
  - destruct item as [| | | | | |d]; try done.
    destruct (d !! "symbol") as [[| | | |s'| |]|] eqn:Hsym; try done.
    intros ->%String.eqb_eq. by exists d.
  - intros (d & -> & ->). apply String.eqb_refl.
Qed.

(** What the comprehension builds from a list it accepts. *)
Lemma tickers_comprehension_spec (items : list value) :
  Forall (λ item, ticker_ok item = true) items →
  ∃ r, tickers_comprehension items empty_tickers = Some r
     ∧ (∀ s, VDict <$> by_str r !! s
             = last (filter (λ item, has_symbol s item) items))
     ∧ (only_str r = true ↔ Forall (λ item, ticker_str item = true) items).
Proof.
  induction items as [|item items IH] using rev_ind; intros Hall.
  - exists empty_tickers. split; [done |]. split; [| done].
    intros s. cbn. by rewrite lookup_empty.
  - apply Forall_app in Hall as [Hall Hitem].
    rewrite Forall_singleton in Hitem.
    destruct (IH Hall) as (acc & Hacc & Hlookup & Hstr).
    rewrite tickers_comprehension_app, Hacc.
    destruct item as [| | | | | |d]; try done.
    cbn [tickers_comprehension]. cbn in Hitem.
    destruct (d !! "symbol") as [v|] eqn:Hv; [| done].
    assert (Hhas : ∀ s, has_symbol s (VDict d)
                        = match v with VStr s' => String.eqb s s' | _ => false end)
      by (intros s; cbn; by rewrite Hv).
    assert (Hts : ticker_str (VDict d)
                  = match v with VStr _ => true | _ => false end)
      by (cbn; by rewrite Hv).
    destruct v as [|b|z|f|s'|l|d']; try done;
      (eexists; split; [reflexivity |]; cbn [by_str only_str]; split;
       [ intros s; rewrite filter_app, filter_cons, filter_nil, Hhas
       | rewrite Forall_app, Forall_singleton, Hts ]).
    all: try (rewrite decide_False by (by intros []);
              by rewrite app_nil_r, Hlookup).
    all: try (split; [done | by intros [_ ?]]).
    + destruct (String.eqb_spec s s') as [-> | Hne].
      * rewrite decide_True by done.
        by rewrite lookup_insert_eq, last_snoc.
      * rewrite decide_False by (by intros []).
        rewrite lookup_insert_ne by done. by rewrite app_nil_r, Hlookup.
    + rewrite Hstr. split; [by intros ? | by intros [? _]].
Qed.

(** X14. [fetch_bybit_spot_tickers] returns [{}] unless the answer is a
    JSON object whose [retCode] compares equal to 0, whose "result" is an
    object and whose "list" there is a list of objects that each have a
    "symbol" that is not itself a list or an object: one item of any other
    kind and every ticker is lost. *)
Theorem tickers_failure_gives_empty (data : value) :
  (∀ d r items,
     data = VDict d →
     py_eq_zero (default VNone (d !! "retCode")) = true →
     d !! "result" = Some (VDict r) →
     r !! "list" = Some (VList items) →
     ¬ Forall (λ item, ticker_ok item = true) items) →
  fetch_bybit_spot_tickers_result (Body data) = empty_tickers.
Proof.
  intros Hbad. unfold fetch_bybit_spot_tickers_result.
  destruct data as [| | | | | |d]; try done. cbn [py_dict_get].
  destruct (py_eq_zero (default VNone (d !! "retCode"))) eqn:Hzero; [| done].
  cbn [py_subscript].
  destruct (d !! "result") as [[| | | | | |r]|] eqn:Hres; try done.
  cbn [py_subscript mbind option_bind].
  destruct (r !! "list") as [lst|] eqn:Hlst; [| done].
  cbn [mbind option_bind].
  destruct lst as [| | | |s|items|d']; try done; cbn [tickers_of].
  - by destruct (String.eqb s "").
  - destruct (tickers_comprehension items empty_tickers) as [t|] eqn:Ht;
      [| done].
    destruct (Hbad d r items eq_refl Hzero Hres Hlst).
    by eapply tickers_comprehension_ok.
  - by destruct (truthy d').
Qed.

Lemma tickers_failure_gives_empty_witness :
  fetch_bybit_spot_tickers_result
    (Feed.bybit_body (VInt 0)
       (VList [VDict Feed.btc_ticker; VDict {[ "symbol" := VList [] ]}]))
  = empty_tickers.
Proof.
  apply tickers_failure_gives_empty.
  intros d r items [= <-] _ Hres Hlst Hall.
  vm_compute in Hres. injection Hres as <-.
  vm_compute in Hlst. injection Hlst as <-.
  apply Forall_cons in Hall as [_ Hall].
  apply Forall_cons in Hall as [Hitem _].
  vm_compute in Hitem. discriminate.
Defined.

(** X15. When the answer is an object whose [retCode] compares equal to 0
    and whose [result.list] is a list of objects that each have a "symbol"
    that is not a list or an object: the ticker filed under a string is the
    last item of the list carrying that string as its symbol, and there is
    none if no item does, so every entry's key is the symbol stored inside
    it; and all keys of the dictionary are strings exactly when every
    item's symbol is one. *)
Theorem tickers_lookup (d r : dict value) (items : list value) (s : string) :
  py_eq_zero (default VNone (d !! "retCode")) = true →
  d !! "result" = Some (VDict r) →
  r !! "list" = Some (VList items) →
  Forall (λ item, ticker_ok item = true) items →
  VDict <$> by_str (fetch_bybit_spot_tickers_result (Body (VDict d))) !! s
    = last (filter (λ item, has_symbol s item) items)
  ∧ (∀ item,
       by_str (fetch_bybit_spot_tickers_result (Body (VDict d))) !! s
         = Some item →
       item !! "symbol" = Some (VStr s))
  ∧ (only_str (fetch_bybit_spot_tickers_result (Body (VDict d))) = true
     ↔ Forall (λ item, ticker_str item = true) items).
Proof.
  intros Hzero Hres Hlst Hall.
  destruct (tickers_comprehension_spec items Hall) as (t & Ht & Hlookup & Hstr).
  assert (Hfetch : fetch_bybit_spot_tickers_result (Body (VDict d)) = t).
  { unfold fetch_bybit_spot_tickers_result. cbn [py_dict_get].
    rewrite Hzero. cbn [py_subscript]. rewrite Hres.
    cbn [py_subscript mbind option_bind]. rewrite Hlst.
    cbn [mbind option_bind tickers_of]. by rewrite Ht. }
  rewrite Hfetch. split; [apply Hlookup |]. split; [| exact Hstr].
  intros item Hitem. specialize (Hlookup s). rewrite Hitem in Hlookup.
  symmetry in Hlookup.
  apply last_Some_elem_of, list_elem_of_filter in Hlookup as [Hs _].
  apply Is_true_true, has_symbol_true in Hs as (d' & [= <-] & Hsym). done.
Qed.

Lemma tickers_lookup_witness :
  by_str (fetch_bybit_spot_tickers_result
            (Feed.bybit_body (VFloat 0)
               (VList [ VDict {[ "symbol" := VStr "BTCUSDT";
                                 "lastPrice" := VStr "1" ]};
                        VDict {[ "symbol" := VInt 7 ]};
                        VDict Feed.btc_ticker ]))) !! "BTCUSDT"
  = Some Feed.btc_ticker.
Proof.
  set (items := [ VDict {[ "symbol" := VStr "BTCUSDT";
                           "lastPrice" := VStr "1" ]};
                  VDict {[ "symbol" := VInt 7 ]};
                  VDict Feed.btc_ticker ]).
  set (r := ({[ "list" := VList items ]} : dict value)).
  set (d := ({[ "retCode" := VFloat 0; "result" := VDict r ]} : dict value)).
  assert (Hzero : py_eq_zero (default VNone (d !! "retCode")) = true)
    by (vm_compute; reflexivity).
  assert (Hres : d !! "result" = Some (VDict r)) by (vm_compute; reflexivity).
  assert (Hlst : r !! "list" = Some (VList items))
    by (vm_compute; reflexivity).
  assert (Hall : Forall (λ item, ticker_ok item = true) items)
    by (repeat constructor).
  destruct (tickers_lookup d r items "BTCUSDT" Hzero Hres Hlst Hall)
    as [H _].
  change (Feed.bybit_body (VFloat 0) (VList items)) with (Body (VDict d)).
  destruct (by_str (fetch_bybit_spot_tickers_result (Body (VDict d)))
              !! "BTCUSDT") as [item|]; [| by vm_compute in H].
  vm_compute in H. injection H as ->. vm_compute. reflexivity.
Defined.

(** The first scenario of the specification, from the providers' payloads
    to the aggregate. *)
Example aggregate_scenario_from_payloads :
  aggregate_data
    (fetch_coingecko_data_result Feed.upper (CoinGeckoBody [Feed.btc_coin]))
    (by_str (fetch_bybit_spot_tickers_result (tickers_answer Feed.ok_net)))
  = {[ "BTCUSDT" := Sample.btc ]}.
Proof. vm_compute. reflexivity. Qed.

(** ** Bybit klines, from the answer to the response *)

(** The two ways [fetch_bybit_klines] can end. *)
Lemma fetch_bybit_klines_result_cases (answer : http_answer) :
  (fetch_bybit_klines_result answer = VList []
   ∧ ∀ d r lst,
       answer = Body (VDict d) →
       py_eq_zero (default VNone (d !! "retCode")) = true →
       d !! "result" = Some (VDict r) →
       r !! "list" = Some lst →
       py_truthy lst = false)
  ∨ ∃ d r lst,
      answer = Body (VDict d)
      ∧ py_eq_zero (default VNone (d !! "retCode")) = true
      ∧ d !! "result" = Some (VDict r)
      ∧ r !! "list" = Some lst
      ∧ py_truthy lst = true
      ∧ fetch_bybit_klines_result answer = lst.
Proof.
  destruct answer as [|data]; [left; by split |].
  destruct data as [| | | | | |d]; try (left; by split).
  cbn [fetch_bybit_klines_result py_dict_get].
  destruct (py_eq_zero (default VNone (d !! "retCode"))) eqn:Hzero;
    [| left; split; [done |]; intros ??? [= <-]; congruence].
  cbn [py_subscript].
  destruct (d !! "result") as [res|] eqn:Hres;
    [| left; split; [done |]; intros ??? [= <-]; congruence].
  destruct res as [| | | | | |r];
    try (left; split; [done |]; intros ??? [= <-]; congruence).
  cbn [py_subscript mbind option_bind].
  destruct (r !! "list") as [lst|] eqn:Hlst;
    [| left; split; [done |]; intros ??? [= <-]; congruence].
  destruct (py_truthy lst) eqn:Htrue.
  - right. by exists d, r, lst.
  - left. split; [done |]. intros ??? [= <-]. congruence.
Qed.

(** X10. A klines request with a non-empty symbol and interval sends one
    request, to the kline endpoint with the parameters built from its
    arguments, and never touches the cache.  It returns a value exactly
    when the provider's answer is an object whose [retCode] compares equal
    to 0 (the integer 0, and also 0.0 and [false]) and whose [result.list]
    is true in Python's sense, and it returns that value as it is, a list
    of candles or not; every other answer, a failure included, is
    reported as 404. *)
Theorem get_klines_from_outcome (net : Network)
    (symbol interval : option string) (start_time end_time : option Z)
    (limit : Z) (w : World) :
  ¬ missing_or_empty symbol →
  ¬ missing_or_empty interval →
  sent (get_klines_from net symbol interval start_time end_time limit w).2
    = (sent w ++
       [ {| url := "https://api.bybit.com/v5/market/kline";
            params := kline_params symbol interval start_time end_time
                                   limit |} ])%list
  ∧ data_cache (get_klines_from net symbol interval start_time end_time
                                limit w).2
    = data_cache w
  ∧ match (get_klines_from net symbol interval start_time end_time
                           limit w).1 with
    | inr klines =>
        py_truthy klines = true
        ∧ ∃ d r,
            kline_answer net (kline_params symbol interval start_time
                                           end_time limit)
            = Body (VDict d)
            ∧ py_eq_zero (default VNone (d !! "retCode")) = true
            ∧ d !! "result" = Some (VDict r)
            ∧ r !! "list" = Some klines
    | inl e =>
        status_code e = 404%Z
        ∧ ∀ d r lst,
            kline_answer net (kline_params symbol interval start_time
                                           end_time limit)
            = Body (VDict d) →
            py_eq_zero (default VNone (d !! "retCode")) = true →
            d !! "result" = Some (VDict r) →
            r !! "list" = Some lst →
            py_truthy lst = false
    end.
Proof.
  intros Hs%str_truthy_true Hi%str_truthy_true.
  unfold get_klines_from. rewrite Hs, Hi.
  unfold fetch_bybit_klines_from, send, bind, ret, raise. cbn.
  destruct (fetch_bybit_klines_result_cases
              (kline_answer net (kline_params symbol interval start_time
                                              end_time limit)))
    as [[-> Hnone] | (d & r & lst & Hans & Hzero & Hres & Hlst & Htrue & ->)].
  - cbn. by repeat split.
  - rewrite Htrue. cbn. repeat split; try done. by exists d, r.
Qed.

Lemma get_klines_from_outcome_witness :
  (get_klines_from Feed.ok_net (Some "BTCUSDT") (Some "60") None None 5
                   (Sample.cold 1000)).1
  = inr (VList [VList (VStr <$> Sample.candle)]).
Proof.
  assert (Hs : ¬ missing_or_empty (Some "BTCUSDT")) by (by intros [|]).
  assert (Hi : ¬ missing_or_empty (Some "60")) by (by intros [|]).
  pose proof (get_klines_from_outcome Feed.ok_net (Some "BTCUSDT")
                (Some "60") None None 5 (Sample.cold 1000) Hs Hi)
    as (_ & _ & H).
  destruct (get_klines_from Feed.ok_net (Some "BTCUSDT") (Some "60") None
              None 5 (Sample.cold 1000)).1 as [e | klines] eqn:E.
  - destruct H as [_ H].
    specialize (H _ _ _ eq_refl eq_refl eq_refl eq_refl). by vm_compute in H.
  - vm_compute in E. by injection E as <-.
Defined.

(** On a typed reply the fetcher's value is the typed model's list. *)
Lemma fetch_bybit_klines_result_typed (reply : kline_reply) :
  fetch_bybit_klines_result (kline_answer_of reply)
  = candles_value
      match reply with
      | KlineBody (Some 0%Z) (c :: cs) => c :: cs
      | _ => []
      end.
Proof.
  destruct reply as [|[z|] l]; [done | |].
  - cbn [kline_answer_of fetch_bybit_klines_result py_dict_get].
    rewrite lookup_insert_eq. cbn [default from_option id py_eq_zero].
    destruct (Z.eqb_spec z 0) as [-> | Hz].
    + cbn [py_subscript]. rewrite lookup_insert_ne by done.
      rewrite lookup_singleton_eq. cbn [py_subscript mbind option_bind].
      rewrite lookup_singleton_eq. by destruct l.
    + by destruct z.
  - cbn [kline_answer_of fetch_bybit_klines_result py_dict_get id].
    by rewrite lookup_singleton_ne.
Qed.

(** The handler with typed replies is the handler on their JSON form. *)
Lemma get_klines_from_typed (up : Upstream) (net : Network)
    (symbol interval : option string) (start_time end_time : option Z)
    (limit : Z) (w : World) :
  (∀ p, kline_answer net p = kline_answer_of (bybit_kline up p)) →
  latency net = round_trip up →
  get_klines_from net symbol interval start_time end_time limit w
  = (match (get_klines up symbol interval start_time end_time limit w).1 with
     | inr candles => inr (candles_value candles)
     | inl e => inl e
     end,
     (get_klines up symbol interval start_time end_time limit w).2).
Proof.
  intros Hans Hlat. unfold get_klines_from, get_klines.
  destruct (negb (str_truthy symbol) || negb (str_truthy interval)); [done |].
  unfold fetch_bybit_klines_from, fetch_bybit_klines, send, client_get, bind,
    ret, raise.
  rewrite Hans, Hlat, fetch_bybit_klines_result_typed.
  destruct (bybit_kline up _) as [|[[| |]|] [|c cs]]; reflexivity.
Qed.

(** ** The aggregated view, from the answers to the response *)

Ltac unfold_handler_from :=
  unfold get_cached_aggregated_investment_data_from, aggregate_fetched,
    gather, fetch_coingecko_data_from, fetch_bybit_spot_tickers_from, send,
    store_data, store_last_updated, read_cache, time_time, http, bindX, retX,
    raiseX, bind, ret, raise.

(** When every ticker symbol is a string, the handler on the answers is
    the handler on the dictionaries decoded from them. *)
Lemma handler_from_typed (upper : string → string) (net : Network)
    (up : Upstream) (w : World) :
  coingecko_markets up
    = fetch_coingecko_data_result upper (coingecko_answer net) →
  bybit_tickers up
    = by_str (fetch_bybit_spot_tickers_result (tickers_answer net)) →
  round_trip up = latency net →
  only_str (fetch_bybit_spot_tickers_result (tickers_answer net)) = true →
  get_cached_aggregated_investment_data_from upper net w
  = http (get_cached_aggregated_investment_data up) w.
Proof.
  intros Hcg Htk Hrt Hstr. unfold_handler_from. unfold_handler.
  rewrite Hcg, Htk, Hrt.
  destruct (cache_fresh (clock w) (data_cache w)); [done |]. cbn.
  rewrite Hstr.
  destruct (truthy (aggregate_data _ _)); cbn; [done |].
  by destruct (truthy (data (data_cache w))).
Qed.

(** X6. The handler for the aggregated view never returns an empty
    mapping: what it returns is non-empty and is the snapshot the cache
    holds afterwards.  It raises the 503 only when the cache was empty and
    aggregation came back empty.  The one other way out is the
    [AttributeError] of aggregating a ticker dictionary that has a key
    which is not a string, which happens on every refresh that fetches
    such a dictionary.  In both error cases the cache is as it was. *)
Theorem handler_from_outcome (upper : string → string) (net : Network)
    (w : World) :
  match get_cached_aggregated_investment_data_from upper net w with
  | (inr d, w') => d ≠ ∅ ∧ data (data_cache w') = d
  | (inl (HTTP e), w') =>
      status_code e = 503%Z
      ∧ data (data_cache w) = ∅
      ∧ only_str (fetch_bybit_spot_tickers_result (tickers_answer net)) = true
      ∧ aggregate_data
          (fetch_coingecko_data_result upper (coingecko_answer net))
          (by_str (fetch_bybit_spot_tickers_result (tickers_answer net))) = ∅
      ∧ data_cache w' = data_cache w
  | (inl AttributeError, w') =>
      cache_fresh (clock w) (data_cache w) = false
      ∧ only_str (fetch_bybit_spot_tickers_result (tickers_answer net)) = false
      ∧ data_cache w' = data_cache w
  end
  ∧ (cache_fresh (clock w) (data_cache w) = false →
     only_str (fetch_bybit_spot_tickers_result (tickers_answer net)) = false →
     (get_cached_aggregated_investment_data_from upper net w).1
     = inl AttributeError).
Proof.
  unfold_handler_from.
  destruct (cache_fresh (clock w) (data_cache w)) eqn:Hfresh; cbn.
  - split; [| done]. split; [| done].
    apply truthy_nonempty. unfold cache_fresh in Hfresh.
    by apply andb_true_iff in Hfresh as [_ ?].
  - destruct (only_str _) eqn:Hstr; cbn; [| done].
    split; [| done].
    destruct (truthy (aggregate_data _ _)) eqn:Hagg; cbn.
    + split; [by apply truthy_nonempty | done].
    + destruct (truthy (data (data_cache w))) eqn:Hdata; cbn.
      * split; [by apply truthy_nonempty | done].
      * repeat split; by apply truthy_empty_iff.
Qed.

Lemma handler_from_keeps_data (upper : string → string) (net : Network)
    (w : World) :
  data (data_cache w) ≠ ∅ →
  data (data_cache
          (get_cached_aggregated_investment_data_from upper net w).2) ≠ ∅.
Proof.
  intros Hdata. unfold_handler_from.
  destruct (cache_fresh (clock w) (data_cache w)); cbn; [done |].
  destruct (only_str _); cbn; [| done].
  destruct (truthy (aggregate_data _ _)) eqn:Hagg; cbn.
  - by apply truthy_nonempty.
  - by destruct (truthy (data (data_cache w))).
Qed.

Lemma handler_from_warm (upper : string → string) (net : Network)
    (w : World) :
  data (data_cache w) ≠ ∅ →
  (∃ d, (get_cached_aggregated_investment_data_from upper net w).1 = inr d
        ∧ d ≠ ∅)
  ∨ ((get_cached_aggregated_investment_data_from upper net w).1
       = inl AttributeError
     ∧ only_str (fetch_bybit_spot_tickers_result (tickers_answer net))
       = false).
Proof.
  intros Hdata. unfold_handler_from.
  destruct (cache_fresh (clock w) (data_cache w)); cbn; [left; by eexists |].
  destruct (only_str _); cbn; [| by right].
  left. destruct (truthy (aggregate_data _ _)) eqn:Hagg; cbn.
  - eexists. split; [done | by apply truthy_nonempty].
  - rewrite (truthy_true _ Hdata). by eexists.
Qed.

Lemma get_klines_from_cache (net : Network) (symbol interval : option string)
    (start_time end_time : option Z) (limit : Z) (w : World) :
  data_cache (get_klines_from net symbol interval start_time end_time
                              limit w).2 = data_cache w.
Proof.
  unfold get_klines_from.
  destruct (negb (str_truthy symbol) || negb (str_truthy interval));
    [done |].
  unfold fetch_bybit_klines_from, send, bind, ret, raise. cbn.
  by destruct (py_truthy _).
Qed.

Lemma serve_from_keeps_data (upper : string → string) (c : Call) (w : World) :
  data (data_cache w) ≠ ∅ → data (data_cache (serve_from upper c w).2) ≠ ∅.
Proof.
  intros Hdata. unfold serve_from.
  destruct (asked c); cbn [snd].
  - by apply handler_from_keeps_data.
  - by rewrite get_klines_from_cache.
Qed.

Lemma run_from_keeps_data (upper : string → string) (cs : list Call)
    (w : World) :
  data (data_cache w) ≠ ∅ → data (data_cache (run_from upper cs w)) ≠ ∅.
Proof.
  revert w. induction cs as [|c cs IH]; intros w Hdata; [done |].
  apply IH. by apply serve_from_keeps_data.
Qed.

(** X8. Once the cache holds a snapshot it holds one for good: after any
    further requests, at any clock readings and whatever the providers
    answer, the cached mapping is still non-empty.  A request for the
    aggregated view is then answered with a non-empty snapshot and never
    with the 503; the only way it can fail is the [AttributeError] of a
    fetched ticker dictionary with a key that is not a string. *)
Theorem warm_cache_never_unavailable (upper : string → string)
    (cs : list Call) (c : Call) (w : World) :
  data (data_cache w) ≠ ∅ →
  asked c = AggregatedData →
  data (data_cache (run_from upper cs w)) ≠ ∅
  ∧ ((∃ d, (serve_from upper c (run_from upper cs w)).1 = ReturnedSnapshot d
           ∧ d ≠ ∅)
     ∨ ((serve_from upper c (run_from upper cs w)).1
          = RaisedExn AttributeError
        ∧ only_str (fetch_bybit_spot_tickers_result (tickers_answer (net c)))
          = false)).
Proof.
  intros Hdata Hasked.
  pose proof (run_from_keeps_data upper cs w Hdata) as Hrun.
  split; [exact Hrun |].
  unfold serve_from. rewrite Hasked. cbn [fst].
  set (w0 := {| data_cache := data_cache (run_from upper cs w);
                clock := at_time c; sent := sent (run_from upper cs w) |}).
  destruct (handler_from_warm upper (net c) w0 Hrun)
    as [(d & -> & Hd) | [-> Hstr]]; [left; by exists d | by right].
Qed.

Lemma warm_cache_never_unavailable_witness :
  data (data_cache
          (run_from Feed.upper
             [ {| at_time := 5000%float; asked := AggregatedData;
                  net := Feed.null_symbol_net |};
               {| at_time := 5001%float; asked := AggregatedData;
                  net := Feed.ok_net |} ]
             (Sample.warm 0))) ≠ ∅
  ∧ (serve_from Feed.upper
       {| at_time := 9000%float; asked := AggregatedData;
          net := Feed.null_symbol_net |}
       (run_from Feed.upper
          [ {| at_time := 5000%float; asked := AggregatedData;
               net := Feed.null_symbol_net |};
            {| at_time := 5001%float; asked := AggregatedData;
               net := Feed.ok_net |} ]
          (Sample.warm 0))).1
    = RaisedExn AttributeError.
Proof.
  assert (Hdata : data (data_cache (Sample.warm 0)) ≠ ∅)
    by (apply truthy_nonempty; vm_compute; reflexivity).
  pose proof (warm_cache_never_unavailable Feed.upper
                [ {| at_time := 5000%float; asked := AggregatedData;
                     net := Feed.null_symbol_net |};
                  {| at_time := 5001%float; asked := AggregatedData;
                     net := Feed.ok_net |} ]
                {| at_time := 9000%float; asked := AggregatedData;
                   net := Feed.null_symbol_net |}
                (Sample.warm 0) Hdata eq_refl) as [H1 H2].
  split; [exact H1 |]. vm_compute. reflexivity.
Defined.

(** The answers with a JSON [null] symbol, on a stale cache and on a cold
    one: the [AttributeError] leaves the handler and the two requests have
    been sent. *)
Example null_symbol_raises :
  (get_cached_aggregated_investment_data_from Feed.upper Feed.null_symbol_net
     (Sample.warm 5000)).1 = inl AttributeError
  ∧ length (sent (get_cached_aggregated_investment_data_from Feed.upper
                    Feed.null_symbol_net (Sample.cold 1000)).2) = 2.
Proof. vm_compute. done. Qed.
